(** * The crypto.news scraper: extraction engine of [crypto_news_scraper.py]

    A shallow embedding of the three functions that make up the heuristic
    content-extraction engine, [extract_article_images],
    [get_article_content] and [get_latest_crypto_news] (with the helper
    [download_image]), together with the parts of Python, [urllib.parse] and
    BeautifulSoup they rely on.

    Conventions.
    - A Python [str] is a [string]; a character is a code point below 256.
    - A raised exception is a value of [exn]; a computation that may raise
      returns [res A]; one that also prints returns [io A], which carries the
      lines written to standard output.
    - The network, the file system and the clock are parameters of the
      development (section [World]): a request is a function of its
      arguments. *)

From Stdlib Require Import ZArith Lia Bool Ascii String DecimalString.
From stdpp Require Import base option list gmap strings.

Set Warnings "-notation-for-abbreviation,-register-all".

Local Open Scope Z_scope.
Local Open Scope nat_scope.

(** ** Exceptions *)

Inductive exn : Type :=
  | RequestException (msg : string)   (* requests.exceptions.RequestException and subclasses *)
  | ValueError (msg : string)
  | OtherException (msg : string).

(** [str(e)] *)
Definition exn_str (e : exn) : string :=
  match e with
  | RequestException m | ValueError m | OtherException m => m
  end.

Inductive res (A : Type) : Type :=
  | Ok (a : A)
  | Raise (e : exn).
Arguments Ok {A} a.
Arguments Raise {A} e.

(** Sequencing of computations that may raise. *)
Definition res_bind {A B} (m : res A) (f : A → res B) : res B :=
  match m with
  | Ok a => f a
  | Raise e => Raise e
  end.

Declare Scope res_scope.
Delimit Scope res_scope with res.
Notation "x <- m ; k" := (res_bind m (λ x, k))
  (at level 20, m at level 100, k at level 200, only parsing) : res_scope.
Notation "' pat <- m ; k" := (res_bind m (λ x, match x with pat => k end))
  (at level 20, pat pattern, m at level 100, k at level 200, only parsing) : res_scope.
Local Open Scope res_scope.

(** A step that returns nothing and may raise. *)
Definition guard (e : option exn) : res unit :=
  match e with
  | Some x => Raise x
  | None => Ok tt
  end.

(** ** Python strings *)

Module Py.

Definition code (c : ascii) : nat := nat_of_ascii c.

(** [str.isspace] on one character. *)
Definition isspace (c : ascii) : bool :=
  let n := code c in
  (9 <=? n) && (n <=? 13) || (28 <=? n) && (n <=? 32) || (n =? 133) || (n =? 160).

(** The characters [int()] skips around a literal. *)
Definition is_int_space (c : ascii) : bool :=
  let n := code c in
  (9 <=? n) && (n <=? 13) || (n =? 32) || (n =? 133) || (n =? 160).

Definition lower_char (c : ascii) : ascii :=
  let n := code c in
  if (65 <=? n) && (n <=? 90)
     || (192 <=? n) && (n <=? 222) && negb (n =? 215)
  then ascii_of_nat (n + 32) else c.

(** [s.lower()] *)
Fixpoint lower (s : string) : string :=
  match s with
  | EmptyString => EmptyString
  | String c s' => String (lower_char c) (lower s')
  end.

(** [s.startswith(p)] *)
Fixpoint startswith (s p : string) {struct p} : bool :=
  match p with
  | EmptyString => true
  | String a p' =>
      match s with
      | EmptyString => false
      | String b s' => Ascii.eqb a b && startswith s' p'
      end
  end.

(** [s.endswith(p)] *)
Definition endswith (s p : string) : bool :=
  startswith (String.rev s) (String.rev p).

(** [s.startswith((p1, p2, ...))], [s.endswith((p1, p2, ...))] *)
Definition startswith_any (s : string) (ps : list string) : bool :=
  existsb (startswith s) ps.
Definition endswith_any (s : string) (ps : list string) : bool :=
  existsb (endswith s) ps.

(** [sub in s] *)
Fixpoint contains (sub s : string) : bool :=
  startswith s sub ||
  match s with
  | EmptyString => false
  | String _ s' => contains sub s'
  end.

Fixpoint drop_while (f : ascii → bool) (s : string) : string :=
  match s with
  | EmptyString => EmptyString
  | String c s' => if f c then drop_while f s' else s
  end.

Definition lstrip_by (f : ascii → bool) (s : string) : string := drop_while f s.
Definition rstrip_by (f : ascii → bool) (s : string) : string :=
  String.rev (drop_while f (String.rev s)).
Definition strip_by (f : ascii → bool) (s : string) : string :=
  rstrip_by f (lstrip_by f s).

(** [s.strip()] *)
Definition strip (s : string) : string := strip_by isspace s.

(** [s.replace(c, "")] for a one-character [c], several at once. *)
Fixpoint remove_chars (f : ascii → bool) (s : string) : string :=
  match s with
  | EmptyString => EmptyString
  | String c s' => if f c then remove_chars f s' else String c (remove_chars f s')
  end.

(** [s.partition(c)] for a one-character separator, [None] when [c] does
    not occur: the text before its first occurrence and the text after. *)
Fixpoint cut (f : ascii → bool) (s : string) : option (string * string) :=
  match s with
  | EmptyString => None
  | String c s' =>
      if f c then Some (EmptyString, s')
      else match cut f s' with
           | Some (a, b) => Some (String c a, b)
           | None => None
           end
  end.

(** Split before the first character satisfying [f] (kept in the second
    part); everything goes left when there is none. *)
Fixpoint break (f : ascii → bool) (s : string) : string * string :=
  match s with
  | EmptyString => (EmptyString, EmptyString)
  | String c s' =>
      if f c then (EmptyString, s)
      else let '(a, b) := break f s' in (String c a, b)
  end.

Definition is_char (c : ascii) : ascii → bool := Ascii.eqb c.

(** [s.split(c)] for a one-character separator. *)
Fixpoint split (c : ascii) (s : string) : list string :=
  match s with
  | EmptyString => [EmptyString]
  | String a s' =>
      match split c s' with
      | w :: ws => if Ascii.eqb a c then EmptyString :: w :: ws else String a w :: ws
      | [] => [String a EmptyString]
      end
  end.

(** [sep.join(l)] *)
Fixpoint join (sep : string) (l : list string) : string :=
  match l with
  | [] => EmptyString
  | [x] => x
  | x :: l' => x +:+ sep +:+ join sep l'
  end.

(** Line boundaries of [str.splitlines] among the code points below 256. *)
Definition is_linebreak (c : ascii) : bool :=
  let n := code c in
  (10 <=? n) && (n <=? 13) || (28 <=? n) && (n <=? 30) || (n =? 133).

(** [s.splitlines()]: a carriage return followed by a line feed is one
    boundary; no empty last line is produced after a final boundary. *)
Fixpoint splitlines_go (cur : string) (s : string) : list string :=
  match s with
  | EmptyString => if String.eqb cur EmptyString then [] else [String.rev cur]
  | String c s' =>
      if is_linebreak c then
        String.rev cur ::
          match s' with
          | String d s'' =>
              if (code c =? 13) && (code d =? 10)
              then splitlines_go EmptyString s''
              else splitlines_go EmptyString s'
          | EmptyString => []
          end
      else splitlines_go (String c cur) s'
  end.
Definition splitlines (s : string) : list string := splitlines_go EmptyString s.

(** [str(n)] for a natural number. *)
Definition str_of_nat (n : nat) : string := NilZero.string_of_uint (Nat.to_uint n).

Definition hex_digit (n : nat) : ascii :=
  if n <? 10 then ascii_of_nat (48 + n) else ascii_of_nat (87 + n).

(** [repr(s)] for a string. *)
Definition printable (c : ascii) : bool :=
  let n := code c in
  (32 <=? n) && (n <? 127) || (161 <=? n) && negb (n =? 173).

Definition bslash : ascii := ascii_of_nat 92.
Definition squote : ascii := ascii_of_nat 39.
Definition dquote : ascii := ascii_of_nat 34.

Definition repr_char (q : ascii) (c : ascii) : string :=
  let n := code c in
  if Ascii.eqb c bslash then String bslash (String bslash EmptyString)
  else if Ascii.eqb c q then String bslash (String q EmptyString)
  else if n =? 9 then String bslash "t"
  else if n =? 10 then String bslash "n"
  else if n =? 13 then String bslash "r"
  else if printable c then String c EmptyString
  else String bslash (String "x"%char
         (String (hex_digit (n / 16)) (String (hex_digit (n mod 16)) EmptyString))).

Fixpoint repr_body (q : ascii) (s : string) : string :=
  match s with
  | EmptyString => EmptyString
  | String c s' => repr_char q c +:+ repr_body q s'
  end.

Definition repr (s : string) : string :=
  let q := if contains (String squote EmptyString) s
              && negb (contains (String dquote EmptyString) s)
           then dquote else squote in
  String q (repr_body q s +:+ String q EmptyString).

(** [str(l)] for a list of strings. *)
Definition repr_list (l : list string) : string :=
  "[" +:+ join ", " (map repr l) +:+ "]".

(** *** [int(s)] on a string, base 10 *)

Definition is_digit (c : ascii) : bool :=
  let n := code c in (48 <=? n) && (n <=? 57).

Definition is_underscore (c : ascii) : bool := Ascii.eqb c "_"%char.

(** Digits with single underscores between them: the value read so far
    and the number of digits, or [None] when malformed. [after_digit] tells
    whether the previous character was a digit. *)
Fixpoint digits_go (after_digit : bool) (acc : Z) (count : nat) (s : string)
  : option (Z * nat) :=
  match s with
  | EmptyString => if after_digit then Some (acc, count) else None
  | String c s' =>
      if is_digit c
      then digits_go true (acc * 10 + Z.of_nat (code c - 48))%Z (S count) s'
      else if is_underscore c && after_digit
      then digits_go false acc count s'
      else None
  end.

Definition int_max_str_digits : nat := 4300.

Definition int_invalid (s : string) : exn :=
  ValueError ("invalid literal for int() with base 10: " +:+ repr s).

Definition int_too_long (n : nat) : exn :=
  ValueError ("Exceeds the limit (4300 digits) for integer string conversion: value has "
              +:+ str_of_nat n +:+ " digits; use sys.set_int_max_str_digits() to increase the limit").

Definition int (s : string) : res Z :=
  let t := strip_by is_int_space s in
  let '(neg, body) :=
    match t with
    | String "-"%char b => (true, b)
    | String "+"%char b => (false, b)
    | _ => (false, t)
    end in
  match digits_go false 0%Z 0 body with
  | None => Raise (int_invalid s)
  | Some (v, n) =>
      if int_max_str_digits <? n then Raise (int_too_long n)
      else Ok (if neg then (- v)%Z else v)
  end.

(** A non-empty string is truthy. *)
Definition truthy (s : string) : bool := negb (String.eqb s EmptyString).

(** [len(s)] *)
Definition len (s : string) : nat := String.length s.

End Py.


(** ** [urllib.parse]

    [urlsplit], [urlparse], [urlunsplit], [urlunparse] and [urljoin] as in
    CPython 3.11's [Lib/urllib/parse.py], on [str] arguments. The two
    validations of a network location that need Unicode tables or the
    [ipaddress] module are parameters: each returns the exception it raises,
    if any. *)

Module Url.

Definition uses_relative : list string :=
  [EmptyString; "ftp"; "http"; "gopher"; "nntp"; "imap"; "wais"; "file"; "https";
   "shttp"; "mms"; "prospero"; "rtsp"; "rtspu"; "sftp"; "svn";
   "svn+ssh"; "ws"; "wss"].

Definition uses_netloc : list string :=
  [EmptyString; "ftp"; "http"; "gopher"; "nntp"; "telnet"; "imap"; "wais"; "file";
   "mms"; "https"; "shttp"; "snews"; "prospero"; "rtsp"; "rtspu";
   "rsync"; "svn"; "svn+ssh"; "sftp"; "nfs"; "git"; "git+ssh"; "ws"; "wss"].

Definition uses_params : list string :=
  [EmptyString; "ftp"; "hdl"; "prospero"; "http"; "imap"; "https"; "shttp"; "rtsp";
   "rtspu"; "sip"; "sips"; "mms"; "sftp"; "tel"].

Definition mem (s : string) (l : list string) : bool := existsb (String.eqb s) l.

Definition is_ascii_alpha (c : ascii) : bool :=
  let n := Py.code c in
  (65 <=? n) && (n <=? 90) || (97 <=? n) && (n <=? 122).

Definition is_scheme_char (c : ascii) : bool :=
  is_ascii_alpha c || Py.is_digit c
  || Ascii.eqb c "+"%char || Ascii.eqb c "-"%char || Ascii.eqb c "."%char.

Fixpoint forallb_str (f : ascii → bool) (s : string) : bool :=
  match s with
  | EmptyString => true
  | String c s' => f c && forallb_str f s'
  end.

(** [_WHATWG_C0_CONTROL_OR_SPACE] *)
Definition c0_or_space (c : ascii) : bool := Py.code c <=? 32.

(** [_UNSAFE_URL_BYTES_TO_REMOVE] *)
Definition unsafe_byte (c : ascii) : bool :=
  let n := Py.code c in (n =? 9) || (n =? 13) || (n =? 10).

Definition is_ascii_str (s : string) : bool :=
  forallb_str (λ c, Py.code c <? 128) s.

Definition has_char (c : ascii) (s : string) : bool :=
  negb (forallb_str (λ d, negb (Ascii.eqb c d)) s).

Record split_result := SplitResult {
  s_scheme : string; s_netloc : string; s_path : string;
  s_query : string; s_fragment : string }.

Record parse_result := ParseResult {
  scheme : string; netloc : string; path : string;
  params : string; query : string; fragment : string }.

(** [_splitnetloc(url, 2)] applied to the text after the two slashes. *)
Definition splitnetloc (s : string) : string * string :=
  Py.break (λ c, Ascii.eqb c "/"%char || Ascii.eqb c "?"%char || Ascii.eqb c "#"%char) s.

(** [url.rfind('/')] as the text up to and including the last slash and
    the text after it. *)
Fixpoint rcut_slash (s : string) : option (string * string) :=
  match s with
  | EmptyString => None
  | String c s' =>
      match rcut_slash s' with
      | Some (a, b) => Some (String c a, b)
      | None => if Ascii.eqb c "/"%char then Some (String c EmptyString, s') else None
      end
  end.

(** [_splitparams(url)], called when [';' in url]. *)
Definition splitparams (url : string) : string * string :=
  match rcut_slash url with
  | Some (dir, last) =>
      (* the last slash itself is not a semicolon: search after it *)
      match Py.cut (Py.is_char ";"%char) last with
      | Some (a, b) => (dir +:+ a, b)
      | None => (url, EmptyString)
      end
  | None =>
      match Py.cut (Py.is_char ";"%char) url with
      | Some (a, b) => (a, b)
      | None => (url, EmptyString)   (* not reached: the caller saw a semicolon *)
      end
  end.

(** [urlunsplit((scheme, netloc, url, query, fragment))] *)
Definition urlunsplit (scheme netloc url query fragment : string) : string :=
  let url :=
    if Py.truthy netloc
       || (Py.truthy scheme && mem scheme uses_netloc && negb (Py.startswith url "//"))
    then
      let url := if Py.truthy url && negb (Py.startswith url "/") then "/" +:+ url else url in
      "//" +:+ netloc +:+ url
    else url in
  let url := if Py.truthy scheme then scheme +:+ ":" +:+ url else url in
  let url := if Py.truthy query then url +:+ "?" +:+ query else url in
  let url := if Py.truthy fragment then url +:+ "#" +:+ fragment else url in
  url.

(** [urlunparse(components)] *)
Definition urlunparse (p : parse_result) : string :=
  let url := if Py.truthy (params p) then path p +:+ ";" +:+ params p else path p in
  urlunsplit (scheme p) (netloc p) url (query p) (fragment p).

(** [segments[1:-1] = filter(None, segments[1:-1])] *)
Definition filter_middle (segments : list string) : list string :=
  match segments with
  | [] => []
  | first :: rest =>
      match rest with
      | [] => [first]
      | _ => first :: filter (λ s, Py.truthy s) (removelast rest) ++ [List.last rest EmptyString]
      end
  end.

(** The loop of [urljoin] over the segments; [resolved_path.pop()] on an
    empty list is ignored. *)
Fixpoint resolve_segments (resolved : list string) (segments : list string) : list string :=
  match segments with
  | [] => resolved
  | seg :: rest =>
      if String.eqb seg ".." then resolve_segments (removelast resolved) rest
      else if String.eqb seg "." then resolve_segments resolved rest
      else resolve_segments (resolved ++ [seg]) rest
  end.

(** The scheme of a URL and what follows its colon, or the default
    scheme and the whole URL when it has none. *)
Definition split_scheme (url scheme : string) : string * string :=
  match Py.cut (Py.is_char ":"%char) url with
  | Some (String c0 pre, post) =>
      if is_ascii_alpha c0 && forallb_str is_scheme_char (String c0 pre)
      then (Py.lower (String c0 pre), post)
      else (scheme, url)
  | _ => (scheme, url)
  end.

Section Validation.

(** [_check_bracketed_netloc(netloc)] and the part of [_checknetloc] that
    runs on a non-empty, non-ASCII network location. *)
Variable check_bracketed_netloc : string → option exn.
Variable check_nfkc : string → option exn.

Definition checknetloc (netloc : string) : option exn :=
  if negb (Py.truthy netloc) || is_ascii_str netloc then None
  else check_nfkc netloc.

(** [urlsplit(url, scheme)] *)
Definition urlsplit (url scheme : string) : res split_result :=
  let url := Py.lstrip_by c0_or_space url in
  let scheme := Py.strip_by c0_or_space scheme in
  let url := Py.remove_chars unsafe_byte url in
  let scheme := Py.remove_chars unsafe_byte scheme in
  let '(scheme, url) := split_scheme url scheme in
  '(netloc, url) <-
    (if Py.startswith url "//" then
       let '(netloc, rest) := splitnetloc (String.substring 2 (String.length url - 2) url) in
       let lb := has_char "["%char netloc in
       let rb := has_char "]"%char netloc in
       if (lb && negb rb) || (rb && negb lb)
       then Raise (ValueError "Invalid IPv6 URL")
       else
         _ <- (if lb && rb then guard (check_bracketed_netloc netloc) else Ok tt) ;
         Ok (netloc, rest)
     else Ok (EmptyString, url)) ;
  let '(url, fragment) :=
    match Py.cut (Py.is_char "#"%char) url with
    | Some (a, b) => (a, b)
    | None => (url, EmptyString)
    end in
  let '(url, query) :=
    match Py.cut (Py.is_char "?"%char) url with
    | Some (a, b) => (a, b)
    | None => (url, EmptyString)
    end in
  _ <- guard (checknetloc netloc) ;
  Ok (SplitResult scheme netloc url query fragment).

(** [urlparse(url, scheme)] *)
Definition urlparse (url scheme : string) : res parse_result :=
  r <- urlsplit url scheme ;
  let '(url, params) :=
    if mem (s_scheme r) uses_params && has_char ";"%char (s_path r)
    then splitparams (s_path r)
    else (s_path r, EmptyString) in
  Ok (ParseResult (s_scheme r) (s_netloc r) url params (s_query r) (s_fragment r)).

(** [urljoin(base, url)] *)
Definition urljoin (base url : string) : res string :=
  if negb (Py.truthy base) then Ok url
  else if negb (Py.truthy url) then Ok base
  else
    b <- urlparse base EmptyString ;
    u <- urlparse url (scheme b) ;
    if negb (String.eqb (scheme u) (scheme b)) || negb (mem (scheme u) uses_relative)
    then Ok url
    else if mem (scheme u) uses_netloc && Py.truthy (netloc u)
    then Ok (urlunparse u)
    else
      let netloc := if mem (scheme u) uses_netloc then netloc b else netloc u in
      if negb (Py.truthy (path u)) && negb (Py.truthy (params u))
      then
        let query := if negb (Py.truthy (query u)) then query b else query u in
        Ok (urlunparse (ParseResult (scheme u) netloc (path b) (params b) query (fragment u)))
      else
        let base_parts := Py.split "/" (path b) in
        let base_parts :=
          if negb (String.eqb (List.last base_parts EmptyString) EmptyString)
          then removelast base_parts else base_parts in
        let segments :=
          if Py.startswith (path u) "/"
          then Py.split "/" (path u)
          else filter_middle (base_parts ++ Py.split "/" (path u)) in
        let resolved_path := resolve_segments [] segments in
        let resolved_path :=
          if mem (List.last segments EmptyString) ["."; ".."]
          then resolved_path ++ [EmptyString] else resolved_path in
        let joined := Py.join "/" resolved_path in
        Ok (urlunparse (ParseResult (scheme u) netloc
                          (if Py.truthy joined then joined else "/")
                          (params u) (query u) (fragment u))).

End Validation.

End Url.


(** ** BeautifulSoup documents

    A parsed document as [html.parser] builds it. An element carries its
    lower-case tag name, its [class] attribute (which the parser stores as a
    list of tokens, [None] when the attribute is absent), its other
    attributes (single strings) and its children. A string child is a
    [Text] when its class is [NavigableString] or [CData], and otherwise a
    [Hidden] string of one of the other classes: the text of an element
    is made of the strings of the class the element is interested in,
    which is the plain one except for [script], [style], [template],
    [rt] and [rp]. The [BeautifulSoup] object itself is an element named
    [[document]]. *)

Module Bs.

(** The classes of string other than [NavigableString] and [CData];
    [Comment] also stands for [Doctype], [Declaration] and
    [ProcessingInstruction], which no element is interested in either. *)
Inductive string_class : Type :=
  | Comment
  | Script
  | Stylesheet
  | TemplateString
  | RubyTextString
  | RubyParenthesisString.

Definition class_eqb (a b : string_class) : bool :=
  match a, b with
  | Comment, Comment | Script, Script | Stylesheet, Stylesheet
  | TemplateString, TemplateString | RubyTextString, RubyTextString
  | RubyParenthesisString, RubyParenthesisString => true
  | _, _ => false
  end.

Inductive node : Type :=
  | Text (s : string)
  | Hidden (k : string_class) (s : string)
  | Elem (name : string) (cls : option (list string))
         (attrs : gmap string string) (children : list node).

(** [HTMLTreeBuilder.DEFAULT_STRING_CONTAINERS]: the class of string an
    element of this name holds and is interested in, [None] for the plain
    one. *)
Definition string_containers (name : string) : option string_class :=
  if String.eqb name "rt" then Some RubyTextString
  else if String.eqb name "rp" then Some RubyParenthesisString
  else if String.eqb name "style" then Some Stylesheet
  else if String.eqb name "script" then Some Script
  else if String.eqb name "template" then Some TemplateString
  else None.

Definition soup (children : list node) : node :=
  Elem "[document]" None ∅ children.

Definition is_elem (n : node) : bool :=
  match n with Elem _ _ _ _ => true | _ => false end.

Definition name_of (n : node) : string :=
  match n with Elem t _ _ _ => t | _ => EmptyString end.

Definition children_of (n : node) : list node :=
  match n with Elem _ _ _ cs => cs | _ => [] end.

(** [tag.attrs.get(k)], [k in tag.attrs], [tag.get(k, default)] *)
Definition attr (k : string) (n : node) : option string :=
  match n with Elem _ _ a _ => a !! k | _ => None end.
Definition has_attr (k : string) (n : node) : bool :=
  match attr k n with Some _ => true | None => false end.
Definition get_or (k d : string) (n : node) : string :=
  match attr k n with Some v => v | None => d end.

(** [tag.get('class')] *)
Definition classes (n : node) : option (list string) :=
  match n with Elem _ c _ _ => c | _ => None end.

(** [Tag._all_strings(types=...)], joined: the strings below a node whose
    class is exactly the wanted one, in document order. *)
Fixpoint all_strings (types : option string_class) (n : node) : string :=
  match n with
  | Text s => match types with None => s | Some _ => EmptyString end
  | Hidden k s =>
      match types with
      | Some k' => if class_eqb k k' then s else EmptyString
      | None => EmptyString
      end
  | Elem _ _ _ cs => fold_right (λ c acc, all_strings types c +:+ acc) EmptyString cs
  end.

(** [tag.text]: the strings of the class the tag is interested in. *)
Definition text (n : node) : string :=
  match n with
  | Elem name _ _ _ => all_strings (string_containers name) n
  | _ => all_strings None n
  end.

(** [tag.string] *)
Fixpoint string_of (n : node) : option string :=
  match n with
  | Text s | Hidden _ s => Some s
  | Elem _ _ _ [c] => string_of c
  | Elem _ _ _ _ => None
  end.

(** An element and the elements below it, in document order. *)
Fixpoint subtree (n : node) : list node :=
  match n with
  | Elem _ _ _ cs => n :: flat_map subtree cs
  | _ => []
  end.

(** The elements below a node, in document order: what [find_all] and
    [select] range over. *)
Definition descendants (n : node) : list node := flat_map subtree (children_of n).

(** The same, each element with its ancestors, nearest first. *)
Fixpoint subtree_in (ancestors : list node) (n : node) : list (list node * node) :=
  match n with
  | Elem _ _ _ cs => (ancestors, n) :: flat_map (subtree_in (n :: ancestors)) cs
  | _ => []
  end.
Definition descendants_in (n : node) : list (list node * node) :=
  flat_map (subtree_in [n]) (children_of n).

(** [tag.find_all(p)] and [tag.find(p)] for a predicate on elements. *)
Definition find_all (p : node → bool) (n : node) : list node :=
  filter (λ e, p e) (descendants n).
Definition find (p : node → bool) (n : node) : option node :=
  head (find_all p n).

(** Matching on the tag name: [find_all('img')], [find_all(['div', 'li'])]. *)
Definition named (names : list string) (n : node) : bool :=
  existsb (String.eqb (name_of n)) names.

(** [class_=f] for a function [f]: it is tried on every class token and
    then on the tokens joined by a space; an element without a class
    attribute gives [f(None)], and every [f] of the scraper is falsy
    there. *)
Definition class_matches (f : string → bool) (n : node) : bool :=
  match classes n with
  | Some l => existsb f l || f (Py.join " " l)
  | None => false
  end.

(** [string=f] for a function [f] applied to [tag.string]; every [f] of the
    scraper is falsy on [None]. *)
Definition string_matches (f : string → bool) (n : node) : bool :=
  match string_of n with
  | Some s => f s
  | None => false
  end.

(** [link.find_parent(names)] from the ancestors of [link]. *)
Definition find_parent (names : list string) (ancestors : list node) : option node :=
  head (filter (λ a, named names a) ancestors).

(** The elements that follow the first one satisfying [p]. *)
Fixpoint after_first (p : node → bool) (l : list node) : option (node * list node) :=
  match l with
  | [] => None
  | e :: l' => if p e then Some (e, l') else after_first p l'
  end.

(** [Tag.__eq__]: same name, same attributes, equal children; two string
    children are equal when their characters are. *)
Fixpoint eqb (a b : node) : bool :=
  match a, b with
  | Elem n c at_ cs, Elem n' c' at' cs' =>
      bool_decide (n = n') && bool_decide (c = c') && bool_decide (at_ = at')
      && (fix all2 (l l' : list node) : bool :=
            match l, l' with
            | [], [] => true
            | x :: r, x' :: r' => eqb x x' && all2 r r'
            | _, _ => false
            end) cs cs'
  | (Text s | Hidden _ s), (Text s' | Hidden _ s') => String.eqb s s'
  | _, _ => false
  end.

(** [x in l] for a list of elements. *)
Definition mem (x : node) (l : list node) : bool := existsb (eqb x) l.

(** The CSS selectors the scraper uses. *)
Inductive selector : Type :=
  | SelTag (name : string)          (* [article] *)
  | SelClass (c : string)           (* [.sidebar] *)
  | SelAttr (k v : string).         (* [[role="banner"]] *)

Definition matches (n : node) (s : selector) : bool :=
  is_elem n &&
  match s with
  | SelTag t => String.eqb (name_of n) t
  | SelClass c =>
      match classes n with
      | Some l => existsb (String.eqb c) l
      | None => false
      end
  | SelAttr k v =>
      match attr k n with
      | Some x => String.eqb x v
      | None => false
      end
  end.

(** [tag.select('s1, s2, ...')] *)
Definition select (group : list selector) (n : node) : list node :=
  filter (λ e, existsb (matches e) group) (descendants n).

(** [for element in tag.select(group): element.decompose()]: every
    matching element below [n] is removed with all it contains. *)
Fixpoint decompose_all (group : list selector) (n : node) : node :=
  match n with
  | Elem t c a cs =>
      Elem t c a
        (flat_map (λ ch, if existsb (matches ch) group then []
                          else [decompose_all group ch]) cs)
  | _ => n
  end.

End Bs.

(** ** Output and standard output *)

(** A computation that prints and may raise: the lines printed, then the
    outcome. Lines printed before an exception stay printed. *)
Definition io (A : Type) : Type := list string * res A.

Definition io_ret {A} (a : A) : io A := ([], Ok a).
Definition io_bind {A B} (m : io A) (f : A → io B) : io B :=
  match m with
  | (out, Ok a) => let '(out', r) := f a in (out ++ out', r)
  | (out, Raise e) => (out, Raise e)
  end.

Declare Scope io_scope.
Delimit Scope io_scope with io.
Notation "x <- m ; k" := (io_bind m (λ x, k))
  (at level 20, m at level 100, k at level 200, only parsing) : io_scope.
Notation "' pat <- m ; k" := (io_bind m (λ x, match x with pat => k end))
  (at level 20, pat pattern, m at level 100, k at level 200, only parsing) : io_scope.

Definition print (line : string) : io unit := ([line], Ok tt).
Definition lift {A} (r : res A) : io A := ([], r).
Definition when (b : bool) (m : io unit) : io unit := if b then m else io_ret tt.

(** [for x in l: ...] in [res] and in [io], collecting one result per
    item. *)
Fixpoint for_res {A B} (f : A → res B) (l : list A) : res (list B) :=
  match l with
  | [] => Ok []
  | x :: l' => y <- f x ; ys <- for_res f l' ; Ok (y :: ys)
  end.

Fixpoint for_io {A B} (f : A → io B) (l : list A) : io (list B) :=
  match l with
  | [] => io_ret []
  | x :: l' => (y <- f x ; ys <- for_io f l' ; io_ret (y :: ys))%io
  end.

(** [enumerate(l)], counting from [i]. *)
Fixpoint enumerate_from {A} (i : nat) (l : list A) : list (nat * A) :=
  match l with
  | [] => []
  | x :: l' => (i, x) :: enumerate_from (S i) l'
  end.

(** An entry of [images]: the keys [url], [alt], [title], and
    [is_thumbnail], which only a thumbnail has. *)
Record image := Image {
  img_url : string;
  img_alt : string;
  img_title : string;
  img_is_thumbnail : option bool }.

(** An entry of [local_images]. *)
Record local_image := LocalImage {
  loc_url : string;
  loc_local_path : string;
  loc_alt : string;
  loc_title : string;
  loc_is_thumbnail : bool }.

(** A news item. *)
Record news_item := NewsItem {
  title : string;
  url : option string;
  timestamp : string;
  tags : list string;
  summary : string;
  content : string;
  scraped_at : string;
  images : list image;
  local_images : list local_image }.

(** What [get_article_content] returns: a string, or a dictionary with
    [content] and [images] when images were asked for. *)
Inductive article_result : Type :=
  | ContentOnly (content : string)
  | ContentImages (content : string) (images : list image).

(** [result["content"]] and [result["images"]]; the string returned
    without images is the content. *)
Definition result_content (r : article_result) : string :=
  match r with ContentOnly c | ContentImages c _ => c end.
Definition result_images (r : article_result) : list image :=
  match r with ContentOnly _ => [] | ContentImages _ l => l end.

(** What [get_latest_crypto_news] returns: a list of items, or a
    dictionary with the single key [error]. *)
Inductive output : Type :=
  | Items (items : list news_item)
  | Error (error : string).

(** [os.path.join(a, b)] and [os.path.basename(p)] (POSIX) *)
Definition path_join (a b : string) : string :=
  if Py.startswith b "/" then b
  else if negb (Py.truthy a) || Py.endswith a "/" then a +:+ b
  else a +:+ "/" +:+ b.

Definition basename (p : string) : string :=
  match Url.rcut_slash p with
  | Some (_, last) => last
  | None => p
  end.

(** The regular expression that [extract_article_images] searches a style
    for with [re.search]: the text [background-image], a colon and the text
    [url(] with optional white space around the colon, a single or double
    quote, a lazy group of characters other than a line feed, again a quote,
    and a closing parenthesis. The result is the group of the leftmost
    match. *)
Module BgImage.

Definition is_quote (c : ascii) : bool :=
  Ascii.eqb c Py.squote || Ascii.eqb c Py.dquote.

(** The lazy group: the shortest run without a line feed that a quote and
    a closing parenthesis follow. *)
Fixpoint group (s : string) : option string :=
  match s with
  | EmptyString => None
  | String c s' =>
      if is_quote c && Py.startswith s' ")" then Some EmptyString
      else if Py.code c =? 10 then None
      else String c <$> group s'
  end.

Definition expect (p : string) (s : string) : option string :=
  if Py.startswith s p
  then Some (String.substring (String.length p) (String.length s - String.length p) s)
  else None.

(** A match that starts at the first character of [s]. *)
Definition match_here (s : string) : option string :=
  s ← expect "background-image" s;
  s ← expect ":" (Py.drop_while Py.isspace s);
  s ← expect "url(" (Py.drop_while Py.isspace s);
  match s with
  | String q s' => if is_quote q then group s' else None
  | EmptyString => None
  end.

Fixpoint search (s : string) : option string :=
  match match_here s with
  | Some g => Some g
  | None =>
      match s with
      | EmptyString => None
      | String _ s' => search s'
      end
  end.

End BgImage.

(** ** The scraper *)

Section World.

(** [urllib.parse]'s validations of a network location. *)
Variable check_bracketed_netloc : string → option exn.
Variable check_nfkc : string → option exn.

(** [requests.get(url, headers=headers)] followed by [raise_for_status()]:
    the text of the response, or the exception raised. *)
Variable requests_get : string → gmap string string → res string.

(** [BeautifulSoup(text, 'html.parser')] *)
Variable html_parser : string → res Bs.node.

(** The download of an image: [os.makedirs(folder, exist_ok=True)];
    [requests.get(img_url, stream=True, timeout=10)] with
    [raise_for_status()], giving the [Content-Type] header (empty when
    absent); writing the response to a path. Each reports the exception it
    raises, if any. *)
Variable makedirs : string → option exn.
Variable image_get : string → res string.
Variable write_image : string → string → option exn.

(** [f"image_{int(time.time())}_{hash(img_url) % 10000}.jpg"] *)
Variable generated_filename : string → string.

(** [datetime.now().strftime('%Y-%m-%d %H:%M:%S')] when the item of the
    listing unit at a position is built. *)
Variable now : nat → string.

Definition urljoin : string → string → res string :=
  Url.urljoin check_bracketed_netloc check_nfkc.
Definition urlparse (u : string) : res Url.parse_result :=
  Url.urlparse check_bracketed_netloc check_nfkc u EmptyString.

(** The scraper resolves a URL in four places in the same way:
    [if not u.startswith(('http://', 'https://')): u = urljoin(base, u)]. *)
Definition resolve (base u : string) : res string :=
  if negb (Py.startswith_any u ["http://"; "https://"]) then urljoin base u
  else Ok u.

(** *** [extract_article_images] *)

Definition skip_classes : list string :=
  ["icon"; "avatar"; "logo"; "thumbnail"; "thumb"; "badge"].

(** [str(img.get('class', ''))] *)
Definition class_str (n : Bs.node) : string :=
  match Bs.classes n with
  | Some l => Py.repr_list l
  | None => EmptyString
  end.

(** [img.get(k) and int(img.get(k)) < 100] *)
Definition too_small (k : string) (img : Bs.node) : res bool :=
  match Bs.attr k img with
  | Some v => if Py.truthy v then n <- Py.int v ; Ok (n <? 100)%Z else Ok false
  | None => Ok false
  end.

(** The first of the attributes that is present and not empty. *)
Fixpoint first_attr (ks : list string) (img : Bs.node) : option string :=
  match ks with
  | [] => None
  | k :: ks' =>
      match Bs.attr k img with
      | Some v => if Py.truthy v then Some v else first_attr ks' img
      | None => first_attr ks' img
      end
  end.

(** One turn of the loop over the [img] elements: the entry appended, or
    [None] where the loop continues. *)
Definition image_of_img (base_url : string) (img : Bs.node) : res (option image) :=
  let continue : res (option image) := Ok None in
  small_w <- too_small "width" img ;
  if small_w then continue else
  small_h <- too_small "height" img ;
  if small_h then continue else
  if existsb (λ c, Py.contains c (Py.lower (class_str img))) skip_classes then continue else
  match first_attr ["src"; "data-src"; "data-lazy-src"; "data-original"] img with
  | None => continue
  | Some img_url =>
      img_url <- resolve base_url img_url ;
      Ok (Some (Image img_url (Py.strip (Bs.get_or "alt" EmptyString img))
                      (Py.strip (Bs.get_or "title" EmptyString img)) None))
  end.

(** One turn of the loop over the elements with a [style] attribute. *)
Definition image_of_style (base_url : string) (element : Bs.node) : res (option image) :=
  let style := Bs.get_or "style" EmptyString element in
  if Py.contains "background-image" style then
    match BgImage.search style with
    | Some img_url =>
        img_url <- resolve base_url img_url ;
        Ok (Some (Image img_url EmptyString EmptyString None))
    | None => Ok None
    end
  else Ok None.

Definition extract_article_images (container : Bs.node) (base_url : string)
  : res (list image) :=
  from_imgs <- for_res (image_of_img base_url) (Bs.find_all (Bs.named ["img"]) container) ;
  from_styles <- for_res (image_of_style base_url) (Bs.find_all (Bs.has_attr "style") container) ;
  Ok (omap id from_imgs ++ omap id from_styles).

(** *** [get_article_content] *)

Definition noise_selectors : list Bs.selector :=
  [Bs.SelTag "header"; Bs.SelTag "footer"; Bs.SelTag "nav"; Bs.SelTag "aside";
   Bs.SelClass "sidebar"; Bs.SelClass "comments"; Bs.SelClass "related";
   Bs.SelClass "share"; Bs.SelClass "social"; Bs.SelTag "script"; Bs.SelTag "style";
   Bs.SelAttr "role" "banner"; Bs.SelAttr "role" "navigation"].

Definition content_selectors : list Bs.selector :=
  [Bs.SelTag "article"; Bs.SelTag "main"; Bs.SelClass "post-content";
   Bs.SelClass "entry-content"; Bs.SelClass "article-content"; Bs.SelClass "content";
   Bs.SelClass "article__body"; Bs.SelClass "story-body"; Bs.SelClass "post-body";
   Bs.SelClass "article-body"; Bs.SelClass "news-content";
   Bs.SelAttr "itemprop" "articleBody"; Bs.SelAttr "property" "content:encoded"].

Definition cleanup_selectors : list Bs.selector :=
  [Bs.SelClass "share"; Bs.SelClass "social"; Bs.SelClass "related";
   Bs.SelClass "recommended"; Bs.SelClass "advertisements"; Bs.SelClass "ad";
   Bs.SelClass "ads"].

(** [len(container.text.strip())] *)
Definition text_len (n : Bs.node) : nat := Py.len (Py.strip (Bs.text n)).

(** Approach 1: the first selector with a match of more than 200
    characters, and the first such match. *)
Fixpoint by_selector (selectors : list Bs.selector) (soup : Bs.node) : option Bs.node :=
  match selectors with
  | [] => None
  | s :: rest =>
      match head (filter (λ c, 200 <? text_len c) (Bs.select [s] soup)) with
      | Some c => Some c
      | None => by_selector rest soup
      end
  end.

(** Approach 2: the first [div] or [section] with more than 500 characters
    and more than 3 paragraphs. *)
Definition by_text_block (soup : Bs.node) : option Bs.node :=
  Bs.find (λ c, Bs.named ["div"; "section"] c && (500 <? text_len c)
                && (3 <? length (Bs.find_all (Bs.named ["p"]) c))) soup.

Definition find_content_container (soup : Bs.node) : option Bs.node :=
  let content_container := by_selector content_selectors soup in
  match content_container with
  | Some c =>
      if text_len c <? 200 then
        match by_text_block soup with
        | Some c' => Some c'
        | None => Some c
        end
      else Some c
  | None => by_text_block soup
  end.

Definition failure_marker : string := "Could not extract article content.".

Definition nl : string := String (ascii_of_nat 10) EmptyString.

(** The text of a located container. *)
Definition container_text (content_container : Bs.node) : string :=
  let paragraphs := Bs.find_all (Bs.named ["p"]) content_container in
  let content :=
    if 1 <? length paragraphs
    then Py.join (nl +:+ nl)
           (filter (λ t, Py.truthy t) (map (λ p, Py.strip (Bs.text p)) paragraphs))
    else Py.strip (Bs.text content_container) in
  Py.join nl (filter (λ l, Py.truthy l) (map Py.strip (Py.splitlines content))).

Definition pack (extract_images : bool) (content : string) (images : list image)
  : article_result :=
  if extract_images then ContentImages content images else ContentOnly content.

(** The body of the [try] block. *)
Definition get_article_content_try
    (article_url : string) (headers : gmap string string) (extract_images : bool)
  : res article_result :=
  response_text <- requests_get article_url headers ;
  soup <- html_parser response_text ;
  let soup := Bs.decompose_all noise_selectors soup in
  match find_content_container soup with
  | None =>
      images <- (if extract_images then extract_article_images soup article_url else Ok []) ;
      Ok (pack extract_images failure_marker images)
  | Some content_container =>
      let content_container := Bs.decompose_all cleanup_selectors content_container in
      images <- (if extract_images
                 then extract_article_images content_container article_url else Ok []) ;
      Ok (pack extract_images (container_text content_container) images)
  end.

Definition get_article_content
    (article_url : string) (headers : gmap string string) (extract_images : bool)
  : article_result :=
  match get_article_content_try article_url headers extract_images with
  | Ok r => r
  | Raise e => pack extract_images ("Error fetching article content: " +:+ exn_str e) []
  end.

(** *** [download_image]

    An absent [filename] is the empty string. *)

Definition download_image_try (img_url folder filename : string) : res (option string) :=
  _ <- guard (makedirs folder) ;
  filename <-
    (if negb (Py.truthy filename) then
       parsed_url <- urlparse img_url ;
       let filename := basename (Url.path parsed_url) in
       Ok (if negb (Py.truthy filename) || negb (Url.has_char "."%char filename)
           then generated_filename img_url else filename)
     else Ok filename) ;
  let full_path := path_join folder filename in
  content_type <- image_get img_url ;
  if negb (Py.startswith content_type "image/") then Ok None else
  _ <- guard (write_image full_path img_url) ;
  Ok (Some full_path).

Definition download_image (img_url folder filename : string) : io (option string) :=
  match download_image_try img_url folder filename with
  | Ok r => io_ret r
  | Raise e => (["Error downloading image " +:+ img_url +:+ ": " +:+ exn_str e], Ok None)
  end.

(** *** [get_latest_crypto_news] *)

Definition site : string := "https://crypto.news/".

Definition headers : gmap string string :=
  {[ "User-Agent" :=
       "Mozilla/5.0 (Windows NT 10.0; Win64; x64) AppleWebKit/537.36 (KHTML, like Gecko) Chrome/91.0.4472.124 Safari/537.36" ]}.

(** [lambda c: c and any(term in str(c).lower() for term in terms)] *)
Definition has_term (terms : list string) (c : string) : bool :=
  Py.truthy c && existsb (λ term, Py.contains term (Py.lower c)) terms.

(** [lambda t: t and word in t] *)
Definition has_word (word : string) (t : string) : bool :=
  Py.truthy t && Py.contains word t.

Definition is_some {A} (o : option A) : bool :=
  match o with Some _ => true | None => false end.

(** First approach: the [article] elements of the [div] that follows the
    heading of the Latest section. *)
Definition latest_articles (soup : Bs.node) : list Bs.node :=
  match Bs.after_first (λ e, Bs.named ["h2"] e && Bs.string_matches (has_word "Latest") e)
                       (Bs.descendants soup) with
  | Some (latest_section, following) =>
      match head (filter (λ e, Bs.named ["div"] e) following) with
      | Some latest_container => Bs.find_all (Bs.named ["article"]) latest_container
      | None => []
      end
  | None => []
  end.

(** Second approach: every [article] element. *)
Definition all_articles (soup : Bs.node) : list Bs.node :=
  Bs.find_all (Bs.named ["article"]) soup.

(** Third approach: news-like [div] and [li] elements. *)
Definition news_sections (soup : Bs.node) : list Bs.node :=
  filter (λ section,
            is_some (Bs.find (Bs.named ["a"]) section)
            && (is_some (Bs.find (Bs.named ["h3"]) section)
                || is_some (Bs.find (Bs.named ["h4"]) section)
                || Py.truthy (Py.strip (Bs.text section))))
    (Bs.find_all (λ e, Bs.named ["div"; "li"] e
                       && Bs.class_matches (has_term ["news"; "post"; "article"; "item"; "story"]) e)
                 soup).

(** Fourth approach, first half: the items of the story sections. *)
Definition story_items (soup : Bs.node) : list Bs.node :=
  flat_map (λ story_section,
              filter (λ item, is_some (Bs.find (Bs.named ["a"]) item))
                     (Bs.find_all (Bs.named ["div"; "li"; "article"]) story_section))
    (Bs.find_all (λ e, Bs.named ["div"] e
                       && Bs.class_matches (λ c, Py.truthy c
                            && (Py.contains "top-stories" (Py.lower c)
                                || Py.contains "stories" (Py.lower c))) e)
                 soup).

(** Fourth approach, second half: the parents of the Read more links that
    are not yet among the articles. *)
Definition read_more_parents (soup : Bs.node) (articles : list Bs.node) : list Bs.node :=
  fold_left
    (λ articles link,
       match Bs.find_parent ["div"; "article"; "li"] link.1 with
       | Some parent => if negb (Bs.mem parent articles) then articles ++ [parent] else articles
       | None => articles
       end)
    (filter (λ link, Bs.named ["a"] link.2 && Bs.string_matches (has_word "Read more") link.2)
            (Bs.descendants_in soup))
    articles.

Definition is_nil {A} (l : list A) : bool :=
  match l with [] => true | _ => false end.

Definition locate_articles (soup : Bs.node) : list Bs.node :=
  let articles := latest_articles soup in
  let articles :=
    if is_nil articles then
      let articles := all_articles soup in
      if is_nil articles then news_sections soup else articles
    else articles in
  if is_nil articles then read_more_parents soup (story_items soup) else articles.

(** The thumbnail of a listing unit. *)
Definition thumbnail_of (article : Bs.node) : res (option image) :=
  match Bs.find (Bs.named ["img"]) article with
  | Some img_element =>
      match Bs.attr "src" img_element with
      | Some src =>
          let thumbnail_url :=
            if Py.endswith src "lazy-placeholder.png" then
              match Bs.attr "data-src" img_element with
              | Some data_src => data_src
              | None => src
              end
            else src in
          if Py.truthy thumbnail_url
             && negb (Py.endswith_any thumbnail_url ["lazy-placeholder.png"; "blank.gif"])
          then
            thumbnail_url <- resolve site thumbnail_url ;
            Ok (Some (Image thumbnail_url (Bs.get_or "alt" EmptyString img_element)
                            (Bs.get_or "title" EmptyString img_element) (Some true)))
          else Ok None
      | None => Ok None
      end
  | None => Ok None
  end.

(** The URL of a listing unit. *)
Definition article_url_of (article : Bs.node) : res (option string) :=
  match Bs.find (Bs.named ["a"]) article with
  | Some url_element =>
      match Bs.attr "href" url_element with
      | Some article_url =>
          if Py.startswith article_url "/"
          then (u <- urljoin site article_url ; Ok (Some u))
          else if negb (Py.startswith_any article_url ["http://"; "https://"])
          then (u <- urljoin site article_url ; Ok (Some u))
          else Ok (Some article_url)
      | None => Ok None
      end
  | None => Ok None
  end.

Definition title_of (article : Bs.node) : string :=
  match Bs.find (Bs.named ["h2"; "h3"; "h4"]) article with
  | Some title_element => Py.strip (Bs.text title_element)
  | None =>
      match Bs.find (λ e, Bs.named ["a"] e
                          && Bs.class_matches (λ c, Py.truthy c
                               && (Py.contains "title" (Py.lower c)
                                   || Py.contains "heading" (Py.lower c))) e) article with
      | Some title_link => Py.strip (Bs.text title_link)
      | None =>
          match Bs.find (Bs.named ["a"]) article with
          | Some link =>
              let t := Py.strip (Bs.text link) in
              if Py.truthy t && (10 <? Py.len t) then t else "No title"
          | None => "No title"
          end
      end
  end.

Definition time_words : list string :=
  ["ago"; "hour"; "minute"; "second"; "day"; "week"].

Definition timestamp_of (article : Bs.node) : string :=
  let time_element :=
    match Bs.find (Bs.named ["time"]) article with
    | Some e => Some e
    | None => Bs.find (λ tag, Py.truthy (Bs.name_of tag)
                              && Py.truthy (Bs.get_or "datetime" EmptyString tag)) article
    end in
  match time_element with
  | Some e => Py.strip (Bs.text e)
  | None =>
      match Bs.find (λ span,
                       Bs.named ["span"; "div"; "p"] span
                       && (let text := Py.lower (Py.strip (Bs.text span)) in
                           existsb (λ time_word, Py.contains time_word text) time_words
                           && (Py.len text <? 20))) article with
      | Some span => Py.strip (Bs.text span)
      | None => "Unknown time"
      end
  end.

Definition tags_of (article : Bs.node) : list string :=
  filter (λ tag, Py.truthy tag && (Py.len tag <? 30))
    (map (λ tag_element, Py.strip (Bs.text tag_element))
       (Bs.find_all (λ e, Bs.named ["a"] e
                          && Bs.class_matches (has_term ["category"; "tag"; "topic"]) e)
                    article)).

Definition summary_of (article : Bs.node) (timestamp : string) : string :=
  let summary :=
    match Bs.find (Bs.named ["p"]) article with
    | Some summary_element =>
        let summary := Py.strip (Bs.text summary_element) in
        if Py.truthy summary && (10 <? Py.len summary) then
          if Py.contains (Py.lower summary) (Py.lower timestamp)
             || Py.contains (Py.lower timestamp) (Py.lower summary)
          then EmptyString else summary
        else EmptyString
    | None => EmptyString
    end in
  if negb (Py.truthy summary) then
    match Bs.find (λ e, Bs.named ["div"] e
                        && Bs.class_matches (λ c, Py.truthy c
                             && (Py.contains "summary" (Py.lower c)
                                 || Py.contains "excerpt" (Py.lower c)
                                 || Py.contains "content" (Py.lower c))) e) article with
    | Some summary_div =>
        let t := Py.strip (Bs.text summary_div) in
        if Py.truthy t && (10 <? Py.len t) then t else summary
    | None => summary
    end
  else summary.

(** The thumbnail goes first unless an extracted image has its URL. *)
Definition add_thumbnail (thumbnail_img : option image) (article_images : list image)
  : list image :=
  match thumbnail_img with
  | Some t =>
      if negb (existsb (String.eqb (img_url t)) (map img_url article_images))
      then t :: article_images else article_images
  | None => article_images
  end.

Section Run.

Variable show_progress extract_images download_images : bool.
Variable images_folder : string.

(** [if article_url: ...]: the content and the images of one unit. *)
Definition fetch_article (total i : nat) (title : string)
    (thumbnail_img : option image) (article_url : option string)
  : io (string * list image) :=
  match article_url with
  | Some article_url =>
      if Py.truthy article_url then
        (_ <- when show_progress
                (print ("[" +:+ Py.str_of_nat (i + 1) +:+ "/" +:+ Py.str_of_nat total
                        +:+ "] Fetching content for: " +:+ title)) ;
         if extract_images then
           let result := get_article_content article_url headers true in
           io_ret (result_content result,
                   add_thumbnail thumbnail_img (result_images result))
         else
           io_ret (result_content (get_article_content article_url headers false), []))%io
      else io_ret (EmptyString, [])
  | None => io_ret (EmptyString, [])
  end.

(** One turn of the download loop: the entries appended. *)
Definition download_one (article_folder : string) (j : nat) (img : image)
  : io (list local_image) :=
  (parsed <- lift (urlparse (img_url img)) ;
   let img_filename :=
     "image_" +:+ Py.str_of_nat (j + 1) +:+ "_" +:+ basename (Url.path parsed) in
   local_path <- download_image (img_url img) article_folder img_filename ;
   io_ret
     match local_path with
     | Some p =>
         if Py.truthy p
         then [LocalImage (img_url img) p (img_alt img) (img_title img)
                 (default false (img_is_thumbnail img))]
         else []
     | None => []
     end)%io.

(** [if download_images and article_images: ...] *)
Definition download_all (i : nat) (title : string) (article_images : list image)
  : io (list local_image) :=
  if download_images && negb (is_nil article_images) then
    let article_folder := path_join images_folder ("article_" +:+ Py.str_of_nat (i + 1)) in
    (_ <- when show_progress
            (print ("Downloading " +:+ Py.str_of_nat (length article_images)
                    +:+ " images for article: " +:+ title)) ;
     found <- for_io (λ '(j, img), download_one article_folder j img)
                (enumerate_from 0 article_images) ;
     io_ret (concat found))%io
  else io_ret [].

(** The state of the loop over the units. *)
Record loop_state := LoopState {
  news_items : list news_item;
  processed_urls : gset string }.

(** The part of the loop body after the duplicate check. *)
Definition build_item (total i : nat) (article : Bs.node)
    (thumbnail_img : option image) (article_url : option string) : io news_item :=
  let title := title_of article in
  let timestamp := timestamp_of article in
  let tags := tags_of article in
  let summary := summary_of article timestamp in
  ('(content, article_images) <- fetch_article total i title thumbnail_img article_url ;
   local_images <- download_all i title article_images ;
   io_ret (NewsItem title article_url timestamp tags summary content (now i)
             (if extract_images then article_images else [])
             (if download_images then local_images else [])))%io.

(** The loop body; [continue] leaves the state as it is. *)
Definition process_article (total : nat) (st : loop_state) (i : nat) (article : Bs.node)
  : io loop_state :=
  (thumbnail_img <- lift (thumbnail_of article) ;
   article_url <- lift (article_url_of article) ;
   match article_url with
   | Some u =>
       if bool_decide (u ∈ processed_urls st) then io_ret st
       else
         item <- build_item total i article thumbnail_img article_url ;
         io_ret (LoopState (news_items st ++ [item]) ({[u]} ∪ processed_urls st))
   | None =>
       item <- build_item total i article thumbnail_img article_url ;
       io_ret (LoopState (news_items st ++ [item]) (processed_urls st))
   end)%io.

(** [for i, article in enumerate(articles): ...] *)
Fixpoint loop (total : nat) (st : loop_state) (articles : list (nat * Bs.node))
  : io loop_state :=
  match articles with
  | [] => io_ret st
  | (i, article) :: rest =>
      (st <- process_article total st i article ; loop total st rest)%io
  end.

(** What is printed when no article is found. *)
Definition debug_lines (soup : Bs.node) : list string :=
  ["Debug: Could not find article elements on the page."; "Possible sections found:"]
  ++ map (λ section, "- " +:+ Py.strip (Bs.text section))
         (Bs.find_all (Bs.named ["h1"; "h2"; "h3"]) soup).

(** [articles[:max_articles]] when [max_articles > 0]. *)
Definition limit (max_articles : Z) (articles : list Bs.node) : list Bs.node :=
  if (0 <? max_articles)%Z then take (Z.to_nat max_articles) articles else articles.

(** The body of the [try] block. *)
Definition get_latest_crypto_news_try (max_articles : Z) : io (list news_item) :=
  (_ <- when show_progress (print "Connecting to crypto.news...") ;
   response_text <- lift (requests_get site headers) ;
   _ <- when show_progress (print "Parsing homepage content...") ;
   soup <- lift (html_parser response_text) ;
   let articles := locate_articles soup in
   if is_nil articles then (debug_lines soup, Ok [])
   else
     _ <- when show_progress
            (print ("Found " +:+ Py.str_of_nat (length articles)
                    +:+ " potential news items.")) ;
     let articles := limit max_articles articles in
     st <- loop (length articles) (LoopState [] ∅) (enumerate_from 0 articles) ;
     _ <- when show_progress
            (print ("Successfully scraped " +:+ Py.str_of_nat (length (news_items st))
                    +:+ " news articles.")) ;
     io_ret (news_items st))%io.

(** The standard output and the value returned. *)
Definition get_latest_crypto_news (max_articles : Z) : list string * output :=
  match get_latest_crypto_news_try max_articles with
  | (out, Ok items) => (out, Items items)
  | (out, Raise (RequestException msg)) => (out, Error ("Request error: " +:+ msg))
  | (out, Raise e) => (out, Error ("An error occurred: " +:+ exn_str e))
  end.

End Run.

End World.

(** ** [display_news]

    What [display_news] prints, one string for each call of [print]; the
    text of the clock is a parameter. The items are those that
    [get_latest_crypto_news] builds, so every key is present. *)

(** [c * n] for a one-character string *)
Fixpoint repeat_char (c : ascii) (n : nat) : string :=
  match n with
  | 0 => EmptyString
  | S n' => String c (repeat_char c n')
  end.

(** [s[:n]] *)
Definition slice_to (n : nat) (s : string) : string := String.substring 0 n s.

(** The summary as it is shown: long summaries are cut. *)
Definition summary_preview (summary : string) : string :=
  if 150 <? Py.len summary then slice_to 147 summary +:+ "..." else summary.

(** The content as it is shown. *)
Definition content_preview (show_full_content : bool) (content : string) : string :=
  if negb show_full_content && (500 <? Py.len content)
  then slice_to 500 content +:+ "..." +:+ nl +:+ "(content truncated for display)"
  else content.

(** The lines for the images of an item:
    [for j, img in enumerate(item["images"], 1): ...]. *)
Definition display_image (j : nat) (img : image) : list string :=
  ("   " +:+ Py.str_of_nat j +:+ ". " +:+ img_url img)
  :: (if Py.truthy (img_alt img) && Py.truthy (Py.strip (img_alt img))
      then ["      Alt: " +:+ img_alt img] else []).

Definition display_local_image (j : nat) (img : local_image) : string :=
  "   " +:+ Py.str_of_nat j +:+ ". Saved to: " +:+ loc_local_path img.

(** One turn of the loop over the items. *)
Definition display_item (show_full_content show_images : bool) (i : nat) (item : news_item)
  : list string :=
  [Py.str_of_nat i +:+ ". " +:+ title item;
   "   Time: " +:+ timestamp item]
  ++ (if negb (is_nil (tags item)) then ["   Tags: " +:+ Py.join ", " (tags item)] else [])
  ++ (if Py.truthy (summary item)
      then ["   Summary: " +:+ summary_preview (summary item)] else [])
  ++ (match url item with
      | Some u => if Py.truthy u then ["   URL: " +:+ u] else []
      | None => []
      end)
  ++ (if show_images && negb (is_nil (images item))
      then (nl +:+ "   --- IMAGES (" +:+ Py.str_of_nat (length (images item)) +:+ ") ---")
           :: flat_map (λ p, display_image p.1 p.2) (enumerate_from 1 (images item))
      else [])
  ++ (if show_images && negb (is_nil (local_images item))
      then (nl +:+ "   --- DOWNLOADED IMAGES ("
            +:+ Py.str_of_nat (length (local_images item)) +:+ ") ---")
           :: map (λ p, display_local_image p.1 p.2) (enumerate_from 1 (local_images item))
      else [])
  ++ (if Py.truthy (content item)
      then [nl +:+ "   --- ARTICLE CONTENT ---";
            "   " +:+ content_preview show_full_content (content item)]
      else [])
  ++ [EmptyString].

Definition display_news (retrieved_at : string) (news : output)
    (show_full_content show_images : bool) : list string :=
  match news with
  | Error error => ["Error: " +:+ error]
  | Items news_items =>
      [nl +:+ repeat_char "=" 80;
       "LATEST CRYPTOCURRENCY NEWS FROM CRYPTO.NEWS";
       "Retrieved at: " +:+ retrieved_at;
       repeat_char "=" 80 +:+ nl]
      ++ (if is_nil news_items then ["No news items found."]
          else flat_map (λ p, display_item show_full_content show_images p.1 p.2)
                 (enumerate_from 1 news_items))
  end.

(** ** Example documents and an example environment *)

Module Ex.

Definition tag (name : string) (attrs : list (string * string)) (children : list Bs.node)
  : Bs.node :=
  Bs.Elem name None (list_to_map attrs) children.

Definition tag_c (name : string) (classes : list string) (attrs : list (string * string))
    (children : list Bs.node) : Bs.node :=
  Bs.Elem name (Some classes) (list_to_map attrs) children.

Definition page (body : list Bs.node) : Bs.node :=
  Bs.soup [tag "html" [] [tag "body" [] body]].

(** Every network location passes validation. *)
Definition no_check : string → option exn := λ _, None.

(** A unit with a heading and a link. *)
Definition unit (heading href : string) : Bs.node :=
  tag "article" [] [tag "h2" [] [Bs.Text heading]; tag "a" [("href", href)] [Bs.Text "more"]].

(** A listing whose first two units point at the same article. *)
Definition listing : Bs.node :=
  page [unit "Alpha" "/x"; unit "Alpha again" "/x"; unit "Beta" "/y"].

(** A unit with a thumbnail. *)
Definition unit_thumb : Bs.node :=
  tag "article" []
    [tag "h2" [] [Bs.Text "Gamma"];
     tag "a" [("href", "/pictures")] [Bs.Text "more"];
     tag "img" [("src", "/thumb.jpg"); ("alt", "thumb"); ("data-src", "/other.jpg")] []].

(** A listing unit with a thumbnail, pointing at an article whose page
    shows the same picture twice. *)
Definition listing_pictures : Bs.node :=
  page [unit_thumb].

Definition page_pictures : Bs.node :=
  page [tag "div" [] [tag "img" [("src", "a.png")] []; tag "img" [("src", "a.png")] []]].

(** An article page whose only picture sits in the page header. *)
Definition page_header : Bs.node :=
  page [tag "header" [] [tag "img" [("src", "https://crypto.news/banner.png")] []];
        tag "p" [] [Bs.Text "Short."]].

(** A content region with a picture whose width is a percentage. *)
Definition region_percent : Bs.node :=
  tag "div" [] [tag "img" [("src", "a.png"); ("width", "100%")] []].

(** A unit whose only paragraph is its timestamp, inside an excerpt. *)
Definition unit_time : Bs.node :=
  tag "article" []
    [tag "time" [] [Bs.Text "12 minutes ago"];
     tag_c "div" ["excerpt"] [] [tag "p" [] [Bs.Text "12 minutes ago"]]].

Definition listing_time : Bs.node := page [unit_time].

(** A unit whose picture is only given by [data-src]. *)
Definition unit_lazy : Bs.node :=
  tag "article" []
    [tag "a" [("href", "/z")] [Bs.Text "more"];
     tag "img" [("data-src", "/real.jpg")] []].

(** A page without any unit. *)
Definition page_plain : Bs.node :=
  page [tag "h1" [] [Bs.Text " Welcome "]; tag "span" [] [Bs.Text "Nothing here"]].

(** A unit with two tag links, one of them too long to be a tag, and a
    summary. *)
Definition unit_tags : Bs.node :=
  tag "article" []
    [tag "h3" [] [Bs.Text " Delta "];
     tag "a" [("href", "/d")] [Bs.Text "more"];
     tag_c "a" ["post-tag"] [("href", "/t/btc")] [Bs.Text "Bitcoin"];
     tag_c "a" ["category"] [("href", "/c")]
       [Bs.Text "A category name of more than thirty characters"];
     tag "p" [] [Bs.Text "Bitcoin moved today."]].

Definition listing_tags : Bs.node := page [unit_tags].

(** A listing whose second unit has a link that cannot be joined. *)
Definition unit_bad : Bs.node := unit "Bad" "//[bad".
Definition listing_bad : Bs.node := page [unit "Alpha" "/x"; unit_bad].

(** An article page with one long paragraph inside an [article]. *)
Definition story : Bs.node :=
  tag "article" [] [tag "p" [] [Bs.Text (repeat_char "a" 201)]].
Definition page_story : Bs.node := page [story].

(** A listing with two equal units without link and two units with the
    same link. *)
Definition listing_linkless : Bs.node :=
  page [unit_time; unit_time; unit "Alpha" "/x"; unit "Alpha again" "/x"].

(** The items of an output, none for an error. *)
Definition items_of (o : list string * output) : list news_item :=
  match o.2 with
  | Items items => items
  | Error _ => []
  end.

(** An article page without container whose picture has a width in
    per cent. *)
Definition page_percent : Bs.node := page [region_percent].

(** A unit whose time is carried by a [script] element with a
    [datetime] attribute, and a link. *)
Definition unit_script : Bs.node :=
  tag "article" []
    [tag "script" [("datetime", "2024-01-01")] [Bs.Hidden Bs.Script "var t = 1;"];
     tag "a" [("href", "/x")] [Bs.Text "more"]].

Definition listing_script : Bs.node :=
  page [unit_script; unit "Alpha" "/x"; unit "Beta" "/y"].

(** The response to a request is the address itself, for the addresses
    that exist; the parser maps it to the page. *)
Definition pages (home : Bs.node) : list (string * Bs.node) :=
  [("https://crypto.news/", home);
   ("https://crypto.news/x", page_pictures);
   ("https://crypto.news/pictures", page_pictures);
   ("https://crypto.news/header", page_header);
   ("https://crypto.news/percent", page_percent)].

Definition requests_get (home : Bs.node) (u : string) (h : gmap string string) : res string :=
  if existsb (λ p, String.eqb u p.1) (pages home) then Ok u
  else Raise (RequestException ("404 Client Error: Not Found for url: " +:+ u)).

Definition html_parser (home : Bs.node) (text : string) : res Bs.node :=
  match List.find (λ p, String.eqb text p.1) (pages home) with
  | Some p => Ok p.2
  | None => Raise (OtherException "no markup")
  end.

Definition makedirs (folder : string) : option exn := None.

(** The thumbnail cannot be fetched; everything else is a PNG picture. *)
Definition image_get (u : string) : res string :=
  if String.eqb u "https://crypto.news/thumb.jpg"
  then Raise (RequestException "404 Client Error")
  else Ok "image/png".

Definition write_image (full_path u : string) : option exn := None.
Definition generated_filename (u : string) : string := "image_0_0.jpg".
Definition now (i : nat) : string := "2025-01-01 00:00:00".

(** [get_latest_crypto_news] in this environment, for a home page. *)
Definition run (home : Bs.node) (show_progress extract_images download_images : bool)
    (images_folder : string) (max_articles : Z) : list string * output :=
  get_latest_crypto_news no_check no_check (requests_get home) (html_parser home)
    makedirs image_get write_image generated_filename now
    show_progress extract_images download_images images_folder max_articles.

(** The items of [listing] and of [listing_pictures] in this
    environment. *)
Definition item_alpha : news_item :=
  NewsItem "Alpha" (Some "https://crypto.news/x") "Unknown time" [] EmptyString
    "Could not extract article content." "2025-01-01 00:00:00" [] [].

Definition item_beta : news_item :=
  NewsItem "Beta" (Some "https://crypto.news/y") "Unknown time" [] EmptyString
    "Error fetching article content: 404 Client Error: Not Found for url: https://crypto.news/y"
    "2025-01-01 00:00:00" [] [].

Definition item_delta : news_item :=
  NewsItem "Delta" (Some "https://crypto.news/d") "Unknown time" ["Bitcoin"]
    "Bitcoin moved today."
    "Error fetching article content: 404 Client Error: Not Found for url: https://crypto.news/d"
    "2025-01-01 00:00:00" [] [].

(** The item of the unit whose time is in a [script] element. *)
Definition item_script : news_item :=
  NewsItem "No title" (Some "https://crypto.news/x") "var t = 1;" [] EmptyString
    "Could not extract article content." "2025-01-01 00:00:00" [] [].

(** An item with a summary of 200 characters and a content of 600. *)
Definition item_long : news_item :=
  NewsItem "Long" None "Unknown time" [] (repeat_char "a" 200) (repeat_char "b" 600)
    "2025-01-01 00:00:00" [] [].

Definition picture_thumb : image :=
  Image "https://crypto.news/thumb.jpg" "thumb" EmptyString (Some true).
Definition picture_a : image :=
  Image "https://crypto.news/a.png" EmptyString EmptyString None.

Definition item_gamma : news_item :=
  NewsItem "Gamma" (Some "https://crypto.news/pictures") "Unknown time" [] EmptyString
    "Could not extract article content." "2025-01-01 00:00:00"
    [picture_thumb; picture_a; picture_a]
    [LocalImage "https://crypto.news/a.png" "img/article_1/image_2_a.png"
       EmptyString EmptyString false;
     LocalImage "https://crypto.news/a.png" "img/article_1/image_3_a.png"
       EmptyString EmptyString false].

End Ex.

(** ** Properties *)

(** The value of a computation that prints, without what it printed. *)
Definition outcome {A} (m : io A) : res A := m.2.

(** The URLs that survive de-duplication, in order: a unit without URL
    always does, a unit with a URL does when no earlier unit had it. *)
Fixpoint first_occurrences (seen : gset string) (urls : list (option string))
  : list (option string) :=
  match urls with
  | [] => []
  | None :: rest => None :: first_occurrences seen rest
  | Some u :: rest =>
      if decide (u ∈ seen) then first_occurrences seen rest
      else Some u :: first_occurrences ({[u]} ∪ seen) rest
  end.

(** The units that give an item, each with its URL: those without URL,
    and those whose URL no earlier unit had. *)
Fixpoint first_units (seen : gset string) (units : list (Bs.node * option string))
  : list (Bs.node * option string) :=
  match units with
  | [] => []
  | (a, None) :: rest => (a, None) :: first_units seen rest
  | (a, Some u) :: rest =>
      if decide (u ∈ seen) then first_units seen rest
      else (a, Some u) :: first_units ({[u]} ∪ seen) rest
  end.

Section Downloads.

Variable check_bracketed_netloc check_nfkc : string → option exn.
Variable makedirs : string → option exn.
Variable image_get : string → res string.
Variable write_image : string → string → option exn.

(** A download succeeds when the folder can be made, the request returns
    a response whose content type starts with [image/], and the file can
    be written. *)
Definition downloaded (img_url folder filename : string) : bool :=
  match makedirs folder, image_get img_url with
  | None, Ok content_type =>
      Py.startswith content_type "image/"
      && match write_image (path_join folder filename) img_url with
         | None => true
         | Some _ => false
         end
  | _, _ => false
  end.

(** The entry of [local_images] for the image at position [j], if its
    download succeeds. *)
Definition local_entry (folder : string) (j : nat) (img : image) : option local_image :=
  match urlparse check_bracketed_netloc check_nfkc (img_url img) with
  | Ok parsed =>
      let filename :=
        "image_" +:+ Py.str_of_nat (j + 1) +:+ "_" +:+ basename (Url.path parsed) in
      if downloaded (img_url img) folder filename
      then Some (LocalImage (img_url img) (path_join folder filename)
                   (img_alt img) (img_title img)
                   (default false (img_is_thumbnail img)))
      else None
  | Raise _ => None
  end.

End Downloads.

Section Fetched.

Variable check_bracketed_netloc check_nfkc : string → option exn.
Variable requests_get : string → gmap string string → res string.
Variable html_parser : string → res Bs.node.
Variable extract_images : bool.

(** The content and the images of a unit, from its thumbnail and its
    URL. *)
Definition fetched (thumb : option image) (u : option string) : string * list image :=
  match u with
  | Some x =>
      if Py.truthy x then
        let get := get_article_content check_bracketed_netloc check_nfkc
                     requests_get html_parser x headers in
        if extract_images
        then (result_content (get true), add_thumbnail thumb (result_images (get true)))
        else (result_content (get false), [])
      else (EmptyString, [])
  | None => (EmptyString, [])
  end.

End Fetched.

(** An item carries the title, the timestamp, the tags and the summary of
    the unit it was made from. *)
Definition made_from (article : Bs.node) (item : news_item) : Prop :=
  title item = title_of article
  ∧ timestamp item = timestamp_of article
  ∧ tags item = tags_of article
  ∧ summary item = summary_of article (timestamp_of article).

(** A line of text: not empty, and without a line break in it. *)
Definition not_linebreak (c : ascii) : bool := negb (Py.is_linebreak c).
Definition text_line (l : string) : Prop :=
  l ≠ EmptyString ∧ Url.forallb_str not_linebreak l = true.

(** A URL made of ASCII characters other than square brackets. *)
Definition plain_char (c : ascii) : bool :=
  (Py.code c <? 128) && negb (Ascii.eqb c "["%char) && negb (Ascii.eqb c "]"%char).
Definition plain (s : string) : bool := Url.forallb_str plain_char s.

Lemma outcome_bind {A B} (m : io A) (f : A → io B) :
  outcome (io_bind m f) = res_bind (outcome m) (λ a, outcome (f a)).
Proof.
  destruct m as [out [a|e]]; simpl; [|done].
  unfold outcome. simpl. by destruct (f a).
Qed.

Lemma outcome_ret {A} (a : A) : outcome (io_ret a) = Ok a.
Proof. done. Qed.

Lemma outcome_lift {A} (r : res A) : outcome (lift r) = r.
Proof. done. Qed.

Lemma outcome_when (b : bool) (line : string) : outcome (when b (print line)) = Ok tt.
Proof. by destruct b. Qed.

Lemma res_bind_ok {A B} (m : res A) (f : A → res B) (b : B) :
  res_bind m f = Ok b → ∃ a, m = Ok a ∧ f a = Ok b.
Proof. destruct m as [a|e]; simpl; [eauto | done]. Qed.

Section Thumbnail.

Variable check_bracketed_netloc check_nfkc : string → option exn.

Notation thumbnail := (thumbnail_of check_bracketed_netloc check_nfkc).
Notation resolve_url := (resolve check_bracketed_netloc check_nfkc).

(** C10. A listing unit whose first [img] element has no [src] attribute
    gets no thumbnail, whatever its other attributes (such as [data-src])
    are; and when the [src] value does not end with
    [lazy-placeholder.png], the thumbnail is computed from [src], [alt] and
    [title] alone, so [data-src] is consulted only behind that
    placeholder. *)
Theorem thumbnail_needs_src (article img : Bs.node) :
  Bs.find (Bs.named ["img"]) article = Some img →
  (Bs.attr "src" img = None → thumbnail article = Ok None)
  ∧ (∀ src, Bs.attr "src" img = Some src →
       Py.endswith src "lazy-placeholder.png" = false →
       thumbnail article =
         if Py.truthy src && negb (Py.endswith src "blank.gif")
         then u <- resolve_url site src ;
              Ok (Some (Image u (Bs.get_or "alt" EmptyString img)
                                (Bs.get_or "title" EmptyString img) (Some true)))
         else Ok None).
Proof.
  intros Hfind. unfold thumbnail_of. rewrite Hfind. split.
  - by intros ->.
  - intros src -> Hlazy. rewrite Hlazy. unfold Py.endswith_any. simpl.
    by rewrite Hlazy, orb_false_r.
Qed.

End Thumbnail.

(** C10 at a unit whose picture has only [data-src], and at a unit whose
    picture has a [src] next to a [data-src]. *)
Lemma thumbnail_needs_src_witness :
  thumbnail_of Ex.no_check Ex.no_check Ex.unit_lazy = Ok None
  ∧ thumbnail_of Ex.no_check Ex.no_check Ex.unit_thumb
    = Ok (Some (Image "https://crypto.news/thumb.jpg" "thumb" EmptyString (Some true))).
Proof.
  split.
  - apply (thumbnail_needs_src Ex.no_check Ex.no_check Ex.unit_lazy
             (Ex.tag "img" [("data-src", "/real.jpg")] [])).
    + vm_compute. reflexivity.
    + vm_compute. reflexivity.
  - rewrite (proj2 (thumbnail_needs_src Ex.no_check Ex.no_check Ex.unit_thumb
               (Ex.tag "img" [("src", "/thumb.jpg"); ("alt", "thumb");
                              ("data-src", "/other.jpg")] [])
               ltac:(vm_compute; reflexivity)) "/thumb.jpg").
    + vm_compute. reflexivity.
    + vm_compute. reflexivity.
    + vm_compute. reflexivity.
Defined.

(** *** URL resolution *)

Lemma startswith_app (s p : string) : Py.startswith (p +:+ s) p = true.
Proof.
  induction p as [|c p IH]; [done|].
  change (String c p +:+ s) with (String c (p +:+ s)). simpl.
  rewrite IH. by rewrite Ascii.eqb_refl.
Qed.

Lemma startswith_inv (s p : string) : Py.startswith s p = true → ∃ r, s = p +:+ r.
Proof.
  revert s. induction p as [|c p IH]; intros s H.
  - by exists s.
  - destruct s as [|d s]; [done|]. simpl in H.
    apply andb_prop in H as [Hc H]. apply Ascii.eqb_eq in Hc as ->.
    destruct (IH _ H) as [r ->]. by exists r.
Qed.

Lemma str_app_assoc (a b c : string) : (a +:+ b) +:+ c = a +:+ (b +:+ c).
Proof.
  induction a as [|x a IH]; [done|].
  change (String x ((a +:+ b) +:+ c) = String x (a +:+ (b +:+ c))). by rewrite IH.
Qed.

Lemma startswith_app_l (s t p : string) :
  Py.startswith s p = true → Py.startswith (s +:+ t) p = true.
Proof.
  intros [r ->]%startswith_inv. rewrite str_app_assoc. apply startswith_app.
Qed.

(** A URL put together from a scheme that takes a network location starts
    with the scheme, a colon and two slashes. *)
Lemma urlunsplit_prefix (scheme netloc url query fragment : string) :
  Py.truthy scheme = true → Url.mem scheme Url.uses_netloc = true →
  Py.startswith (Url.urlunsplit scheme netloc url query fragment) (scheme +:+ "://") = true.
Proof.
  intros Hs Hm. unfold Url.urlunsplit. cbv zeta. rewrite Hs, Hm, !andb_true_l.
  assert (∀ x, Py.startswith (scheme +:+ ":" +:+ "//" +:+ x) (scheme +:+ "://") = true) as Hlit.
  { intros x. change (scheme +:+ ":" +:+ "//" +:+ x) with (scheme +:+ "://" +:+ x).
    rewrite <- str_app_assoc. apply startswith_app. }
  destruct (Py.truthy fragment); [apply startswith_app_l|];
    (destruct (Py.truthy query); [apply startswith_app_l|]);
    (destruct (Py.truthy netloc || negb (Py.startswith url "//")) eqn:Hc;
     [apply Hlit
     |apply orb_false_elim in Hc as [_ Hu]; apply negb_false_iff in Hu;
      apply startswith_inv in Hu as [r ->]; apply Hlit]).
Qed.

Lemma urlunparse_prefix (p : Url.parse_result) :
  Py.truthy (Url.scheme p) = true → Url.mem (Url.scheme p) Url.uses_netloc = true →
  Py.startswith (Url.urlunparse p) (Url.scheme p +:+ "://") = true.
Proof. intros. unfold Url.urlunparse. by apply urlunsplit_prefix. Qed.

(** The pieces that [urlsplit] cuts a URL into keep a property that all its
    characters have. *)
Section Pieces.

Variable P : ascii → bool.
Notation all := (Url.forallb_str P).

Lemma all_drop_while (f : ascii → bool) (s : string) :
  all s = true → all (Py.drop_while f s) = true.
Proof.
  induction s as [|c s IH]; [done|]. simpl. intros [Hc Hs]%andb_prop.
  destruct (f c); [auto|]. simpl. by rewrite Hc, Hs.
Qed.

Lemma all_remove_chars (f : ascii → bool) (s : string) :
  all s = true → all (Py.remove_chars f s) = true.
Proof.
  induction s as [|c s IH]; [done|]. simpl. intros [Hc Hs]%andb_prop.
  destruct (f c); [auto|]. simpl. by rewrite Hc, IH.
Qed.

Lemma all_cut (f : ascii → bool) (s a b : string) :
  Py.cut f s = Some (a, b) → all s = true → all a = true ∧ all b = true.
Proof.
  revert a b. induction s as [|c s IH]; intros a b; [done|]. simpl.
  intros H [Hc Hs]%andb_prop. destruct (f c); [by simplify_eq|].
  destruct (Py.cut f s) as [[a' b']|]; [|done]. simplify_eq.
  destruct (IH _ _ eq_refl Hs) as [Ha Hb]. simpl. by rewrite Hc, Ha.
Qed.

Lemma all_break (f : ascii → bool) (s a b : string) :
  Py.break f s = (a, b) → all s = true → all a = true ∧ all b = true.
Proof.
  revert a b. induction s as [|c s IH]; intros a b; simpl; [by intros [= <- <-]|].
  intros H [Hc Hs]%andb_prop. destruct (f c).
  - simplify_eq. simpl. by rewrite Hc, Hs.
  - destruct (Py.break f s) as [a' b']. simplify_eq.
    destruct (IH _ _ eq_refl Hs) as [Ha Hb]. simpl. by rewrite Hc, Ha.
Qed.

Lemma all_substring (n m : nat) (s : string) :
  all s = true → all (String.substring n m s) = true.
Proof.
  revert n m. induction s as [|c s IH]; intros n m; [by destruct n, m|].
  simpl. intros [Hc Hs]%andb_prop. destruct n as [|n]; [destruct m as [|m]|]; simpl; auto.
  by rewrite Hc, IH.
Qed.

Lemma all_split_scheme (url scheme sch rest : string) :
  Url.split_scheme url scheme = (sch, rest) → all url = true → all rest = true.
Proof.
  unfold Url.split_scheme. intros H Hu.
  destruct (Py.cut _ url) as [[pre post]|] eqn:Hcut; [|by simplify_eq].
  destruct (all_cut _ _ _ _ Hcut Hu) as [_ Hpost].
  destruct pre as [|c0 pre]; [by simplify_eq|].
  destruct (_ && _); by simplify_eq.
Qed.

End Pieces.

Lemma plain_no_bracket (c : ascii) (s : string) :
  (c = "["%char ∨ c = "]"%char) → plain s = true → Url.has_char c s = false.
Proof.
  intros Hc. unfold Url.has_char, plain. intros H. apply negb_false_iff.
  induction s as [|d s IH]; [done|]. simpl in *. apply andb_prop in H as [Hd Hs].
  rewrite (IH Hs), andb_true_r. unfold plain_char in Hd.
  apply andb_prop in Hd as [[_ H1]%andb_prop H2].
  destruct Hc as [-> | ->]; [exact H1 | exact H2].
Qed.

Lemma plain_ascii (s : string) : plain s = true → Url.is_ascii_str s = true.
Proof.
  unfold plain, Url.is_ascii_str. induction s as [|d s IH]; [done|]. simpl.
  intros [Hd Hs]%andb_prop. rewrite (IH Hs), andb_true_r.
  unfold plain_char in Hd. by apply andb_prop in Hd as [[? _]%andb_prop _].
Qed.

Section Resolve.

Variable check_bracketed_netloc check_nfkc : string → option exn.

Notation url_split := (Url.urlsplit check_bracketed_netloc check_nfkc).
Notation url_parse := (Url.urlparse check_bracketed_netloc check_nfkc).
Notation url_join := (Url.urljoin check_bracketed_netloc check_nfkc).
Notation resolve_url := (resolve check_bracketed_netloc check_nfkc).

Lemma urlsplit_scheme (url scheme : string) (r : Url.split_result) :
  url_split url scheme = Ok r →
  Url.s_scheme r
  = (Url.split_scheme
       (Py.remove_chars Url.unsafe_byte (Py.lstrip_by Url.c0_or_space url))
       (Py.remove_chars Url.unsafe_byte (Py.strip_by Url.c0_or_space scheme))).1.
Proof.
  unfold Url.urlsplit. destruct (Url.split_scheme _ _) as [sch u]. simpl.
  intros ([netloc u'] & _ & H)%res_bind_ok.
  destruct (Py.cut (Py.is_char "#") u') as [[a b]|];
    [destruct (Py.cut (Py.is_char "?") a) as [[a' q]|]
    |destruct (Py.cut (Py.is_char "?") u') as [[a' q]|]];
    apply res_bind_ok in H as (_ & _ & H); by inversion H.
Qed.

Lemma urlparse_scheme (url scheme : string) (p : Url.parse_result) :
  url_parse url scheme = Ok p →
  Url.scheme p
  = (Url.split_scheme
       (Py.remove_chars Url.unsafe_byte (Py.lstrip_by Url.c0_or_space url))
       (Py.remove_chars Url.unsafe_byte (Py.strip_by Url.c0_or_space scheme))).1.
Proof.
  unfold Url.urlparse. intros (r & Hr & H)%res_bind_ok.
  apply urlsplit_scheme in Hr as <-.
  destruct (Url.mem (Url.s_scheme r) Url.uses_params && _) in H;
    [destruct (Url.splitparams _) in H|]; by inversion H.
Qed.

(** The scheme that [urlparse] finds in a base that starts with [http://]
    or [https://]. *)
Lemma urlparse_http_base (base : string) (b : Url.parse_result) :
  Py.startswith_any base ["http://"; "https://"] = true →
  url_parse base EmptyString = Ok b →
  Url.scheme b = "http" ∨ Url.scheme b = "https".
Proof.
  unfold Py.startswith_any. cbn [existsb]. rewrite orb_false_r.
  intros [H|H]%orb_prop Hb; apply urlparse_scheme in Hb as ->;
    apply startswith_inv in H as [r ->]; [left|right]; reflexivity.
Qed.

(** What [urljoin] can return: the URL as it is, the base as it is, or a
    URL put together again under the scheme of the base, which is then
    one of the schemes that take a network location. *)
Lemma urljoin_cases (base url x : string) :
  url_join base url = Ok x →
  x = url ∨ x = base
  ∨ ∃ b p, url_parse base EmptyString = Ok b ∧ x = Url.urlunparse p
           ∧ Url.scheme p = Url.scheme b.
Proof.
  unfold Url.urljoin.
  destruct (Py.truthy base); cbn [negb]; [|intros [= <-]; by left].
  destruct (Py.truthy url); cbn [negb]; [|intros [= <-]; by right; left].
  intros (b & Hb & H)%res_bind_ok. apply res_bind_ok in H as (u & Hu & H).
  destruct (negb (String.eqb (Url.scheme u) (Url.scheme b))) eqn:Hs; cbn [orb] in H;
    [inversion H; by left|].
  apply negb_false_iff, String.eqb_eq in Hs.
  destruct (negb (Url.mem (Url.scheme u) Url.uses_relative)); cbn [orb] in H;
    [inversion H; by left|].
  right; right. exists b. cbv zeta in H.
  destruct (Url.mem (Url.scheme u) Url.uses_netloc && Py.truthy (Url.netloc u)) in H;
    [|destruct (negb (Py.truthy (Url.path u)) && negb (Py.truthy (Url.params u))) in H];
    inversion H; eexists; (split; [exact Hb|]); (split; [reflexivity|]); exact Hs.
Qed.

(** C7, as amended. For a base that starts with [http://] or [https://]
    and any candidate, resolving the result of a resolution again gives
    the same result, an exception included. *)
Theorem resolve_idempotent (base candidate : string) :
  Py.startswith_any base ["http://"; "https://"] = true →
  res_bind (resolve_url base candidate) (resolve_url base) = resolve_url base candidate.
Proof.
  intros Hbase. unfold resolve at 1 3.
  destruct (Py.startswith_any candidate _) eqn:Hc; simpl.
  - unfold resolve. by rewrite Hc.
  - unfold urljoin. destruct (url_join base candidate) as [x|e] eqn:Hj; [|done]. simpl.
    unfold resolve.
    destruct (urljoin_cases _ _ _ Hj) as [-> | [-> | (b & p & Hb & -> & Hp)]].
    + by rewrite Hc.
    + by rewrite Hbase.
    + enough (Py.startswith_any (Url.urlunparse p) ["http://"; "https://"] = true)
        as -> by done.
      unfold Py.startswith_any. cbn [existsb]. rewrite orb_false_r.
      pose proof (urlunparse_prefix p) as Hpre.
      destruct (urlparse_http_base _ _ Hbase Hb) as [Hs|Hs];
        rewrite Hs in Hp; rewrite Hp in Hpre; apply orb_true_intro; [left|right];
        exact (Hpre eq_refl eq_refl).
Qed.

(** *** Further properties of URL resolution *)

(** X12. Against a base that starts with [http://] or [https://], a resolved
    URL starts with one of the two as well, unless it is the candidate
    itself, returned as it is because it names another scheme. *)
Theorem resolve_gives_absolute (base candidate x : string) :
  Py.startswith_any base ["http://"; "https://"] = true →
  resolve_url base candidate = Ok x →
  x = candidate ∨ Py.startswith_any x ["http://"; "https://"] = true.
Proof.
  intros Hbase. unfold resolve.
  destruct (Py.startswith_any candidate _) eqn:Hc; cbn [negb]; [intros [= <-]; by left|].
  unfold urljoin. intros Hj.
  destruct (urljoin_cases _ _ _ Hj) as [-> | [-> | (b & p & Hb & -> & Hp)]];
    [by left|by right|right].
  unfold Py.startswith_any. cbn [existsb]. rewrite orb_false_r.
  pose proof (urlunparse_prefix p) as Hpre.
  destruct (urlparse_http_base _ _ Hbase Hb) as [Hs|Hs];
    rewrite Hs in Hp; rewrite Hp in Hpre; apply orb_true_intro; [left|right];
    exact (Hpre eq_refl eq_refl).
Qed.

Lemma urlsplit_plain (url scheme : string) :
  plain url = true → ∃ r, url_split url scheme = Ok r.
Proof.
  intros Hu. unfold Url.urlsplit.
  pose proof (all_remove_chars plain_char Url.unsafe_byte _
                (all_drop_while plain_char Url.c0_or_space _ Hu)) as Hclean.
  destruct (Url.split_scheme _ _) as [sch rest] eqn:Hsplit.
  apply (all_split_scheme plain_char) in Hsplit; [|exact Hclean].
  destruct (Py.startswith rest "//").
  - destruct (Url.splitnetloc _) as [netloc u] eqn:Hnet.
    apply (all_break plain_char) in Hnet as [Hn _]; [|by apply all_substring].
    rewrite (plain_no_bracket "[" netloc), (plain_no_bracket "]" netloc) by auto.
    cbn [andb orb negb res_bind].
    destruct (Py.cut (Py.is_char "#") u) as [[a f]|];
      [destruct (Py.cut (Py.is_char "?") a) as [[a' q]|]
      |destruct (Py.cut (Py.is_char "?") u) as [[a' q]|]];
      unfold Url.checknetloc; rewrite (plain_ascii _ Hn), orb_true_r; cbn; eauto.
  - cbn [res_bind].
    destruct (Py.cut (Py.is_char "#") rest) as [[a f]|];
      [destruct (Py.cut (Py.is_char "?") a) as [[a' q]|]
      |destruct (Py.cut (Py.is_char "?") rest) as [[a' q]|]]; cbn; eauto.
Qed.

Lemma urlparse_plain (url scheme : string) :
  plain url = true → ∃ p, url_parse url scheme = Ok p.
Proof.
  intros [r Hr]%(urlsplit_plain url scheme). unfold Url.urlparse. rewrite Hr.
  cbn [res_bind].
  destruct (Url.mem (Url.s_scheme r) Url.uses_params && _);
    [destruct (Url.splitparams _)|]; eauto.
Qed.

(** X13. Resolution returns, and raises nothing, when the base and the
    candidate are made of ASCII characters other than square brackets. *)
Theorem resolve_plain_returns (base candidate : string) :
  plain base = true → plain candidate = true →
  ∃ x, resolve_url base candidate = Ok x.
Proof.
  intros Hb Hc. unfold resolve. destruct (negb _); [|by eauto].
  unfold urljoin, Url.urljoin.
  destruct (negb (Py.truthy base)); [by eauto|].
  destruct (negb (Py.truthy candidate)); [by eauto|].
  destruct (urlparse_plain base EmptyString Hb) as [b ->]. cbn [res_bind].
  destruct (urlparse_plain candidate (Url.scheme b) Hc) as [u ->]. cbn [res_bind].
  cbv zeta. repeat case_match; eauto.
Qed.

End Resolve.

(** C7, as amended, at the listing URL and a relative candidate. *)
Lemma resolve_idempotent_witness :
  res_bind (resolve Ex.no_check Ex.no_check "https://crypto.news/" "../a/./b?q")
           (resolve Ex.no_check Ex.no_check "https://crypto.news/")
  = Ok "https://crypto.news/a/b?q".
Proof.
  rewrite (resolve_idempotent Ex.no_check Ex.no_check "https://crypto.news/" "../a/./b?q").
  - vm_compute. reflexivity.
  - vm_compute. reflexivity.
Defined.

(** C7, as stated, fails at the base [HTTP://foo/] and the empty candidate:
    the first resolution returns the base, the second one lowers its
    scheme. *)
Lemma resolve_counterexample :
  resolve Ex.no_check Ex.no_check "HTTP://foo/" EmptyString = Ok "HTTP://foo/"
  ∧ resolve Ex.no_check Ex.no_check "HTTP://foo/" "HTTP://foo/" = Ok "http://foo/"
  ∧ res_bind (resolve Ex.no_check Ex.no_check "HTTP://foo/" EmptyString)
             (resolve Ex.no_check Ex.no_check "HTTP://foo/")
    ≠ resolve Ex.no_check Ex.no_check "HTTP://foo/" EmptyString.
Proof. vm_compute. repeat split; done. Qed.

Section Images.

Variable check_bracketed_netloc check_nfkc : string → option exn.

(** C5. At a content region holding
    [<img src="a.png" width="100%">], [extract_article_images] raises the
    [ValueError] of [int("100%")] instead of returning a list. *)
Theorem extract_article_images_raises (base_url : string) :
  extract_article_images check_bracketed_netloc check_nfkc Ex.region_percent base_url
  = Raise (ValueError "invalid literal for int() with base 10: '100%'").
Proof. reflexivity. Qed.

End Images.

(** C3. At a unit whose only paragraph is its timestamp and sits in a [div]
    of class [excerpt], the paragraph is rejected as the summary and the
    fallback then takes the text of the [div]: the item's summary is its
    timestamp. *)
Theorem summary_is_timestamp :
  timestamp_of Ex.unit_time = "12 minutes ago"
  ∧ summary_of Ex.unit_time (timestamp_of Ex.unit_time) = "12 minutes ago"
  ∧ (Ex.run Ex.listing_time false false false "img" 0).2
    = Items [NewsItem "No title" None "12 minutes ago" [] "12 minutes ago" EmptyString
               "2025-01-01 00:00:00" [] []].
Proof. vm_compute. done. Qed.

Section Content.

Variable check_bracketed_netloc check_nfkc : string → option exn.
Variable requests_get : string → gmap string string → res string.
Variable html_parser : string → res Bs.node.

Notation get_content :=
  (get_article_content check_bracketed_netloc check_nfkc requests_get html_parser).
Notation extract_images :=
  (extract_article_images check_bracketed_netloc check_nfkc).

(** C6, as amended. When an article page is fetched and parsed and no
    content container is found on it once the noise elements are removed,
    [get_article_content] returns the failure marker as content when no
    images are asked for. When images are asked for, it returns the
    failure marker with the images that [extract_article_images] returns
    on the whole document without its noise elements, and, when
    [extract_article_images] raises, the error text as content and no
    image. When the request or the parser raises, it returns the error
    text as content, and no image. In every case it returns: no exception
    leaves it. *)
Theorem no_container_fallback (article_url : string) :
  (∀ text page,
     requests_get article_url headers = Ok text →
     html_parser text = Ok page →
     find_content_container (Bs.decompose_all noise_selectors page) = None →
     get_content article_url headers false = ContentOnly failure_marker
     ∧ get_content article_url headers true
       = match extract_images (Bs.decompose_all noise_selectors page) article_url with
         | Ok images => ContentImages failure_marker images
         | Raise e => ContentImages ("Error fetching article content: " +:+ exn_str e) []
         end)
  ∧ (∀ e,
       requests_get article_url headers = Raise e
       ∨ (∃ text, requests_get article_url headers = Ok text ∧ html_parser text = Raise e) →
       get_content article_url headers false
       = ContentOnly ("Error fetching article content: " +:+ exn_str e)
       ∧ get_content article_url headers true
         = ContentImages ("Error fetching article content: " +:+ exn_str e) []).
Proof.
  unfold get_article_content, get_article_content_try.
  split.
  - intros text page -> Hparse Hnone. cbn [res_bind]. rewrite Hparse. cbn [res_bind].
    cbv zeta. rewrite Hnone. split; [done|].
    by destruct (extract_images _ _).
  - intros e [-> | (text & -> & Hparse)]; cbn [res_bind]; [done|]. by rewrite Hparse.
Qed.

End Content.

(** C6, as amended, at a page without container, at a page without
    container whose picture has a width in per cent, and at an address
    that cannot be fetched. *)
Lemma no_container_fallback_witness :
  get_article_content Ex.no_check Ex.no_check (Ex.requests_get Ex.listing)
    (Ex.html_parser Ex.listing) "https://crypto.news/pictures" headers true
  = ContentImages failure_marker
      [Image "https://crypto.news/a.png" EmptyString EmptyString None;
       Image "https://crypto.news/a.png" EmptyString EmptyString None]
  ∧ get_article_content Ex.no_check Ex.no_check (Ex.requests_get Ex.listing)
      (Ex.html_parser Ex.listing) "https://crypto.news/percent" headers true
    = ContentImages
        "Error fetching article content: invalid literal for int() with base 10: '100%'" []
  ∧ get_article_content Ex.no_check Ex.no_check (Ex.requests_get Ex.listing)
      (Ex.html_parser Ex.listing) "https://crypto.news/percent" headers false
    = ContentOnly failure_marker
  ∧ get_article_content Ex.no_check Ex.no_check (Ex.requests_get Ex.listing)
      (Ex.html_parser Ex.listing) "https://crypto.news/y" headers true
    = ContentImages
        "Error fetching article content: 404 Client Error: Not Found for url: https://crypto.news/y"
        [].
Proof.
  split; [|split; [|split]].
  - refine (proj2 (proj1 (no_container_fallback Ex.no_check Ex.no_check
                            (Ex.requests_get Ex.listing) (Ex.html_parser Ex.listing)
                            "https://crypto.news/pictures")
                     "https://crypto.news/pictures" Ex.page_pictures _ _ _));
      vm_compute; reflexivity.
  - refine (proj2 (proj1 (no_container_fallback Ex.no_check Ex.no_check
                            (Ex.requests_get Ex.listing) (Ex.html_parser Ex.listing)
                            "https://crypto.news/percent")
                     "https://crypto.news/percent" Ex.page_percent _ _ _));
      vm_compute; reflexivity.
  - refine (proj1 (proj1 (no_container_fallback Ex.no_check Ex.no_check
                            (Ex.requests_get Ex.listing) (Ex.html_parser Ex.listing)
                            "https://crypto.news/percent")
                     "https://crypto.news/percent" Ex.page_percent _ _ _));
      vm_compute; reflexivity.
  - refine (proj2 (proj2 (no_container_fallback Ex.no_check Ex.no_check
                            (Ex.requests_get Ex.listing) (Ex.html_parser Ex.listing)
                            "https://crypto.news/y")
                     (RequestException "404 Client Error: Not Found for url: https://crypto.news/y")
                     _)).
    left. vm_compute. reflexivity.
Defined.

(** C6, as stated, fails on a page whose only picture is in its [header]:
    no container is found on the page, with or without its noise elements;
    the picture is what [extract_article_images] finds on the original
    document; and [get_article_content] returns no image. *)
Lemma whole_document_counterexample :
  let article_url := "https://crypto.news/header" in
  let banner := Image "https://crypto.news/banner.png" EmptyString EmptyString None in
  Ex.requests_get Ex.listing article_url headers = Ok article_url
  ∧ Ex.html_parser Ex.listing article_url = Ok Ex.page_header
  ∧ find_content_container Ex.page_header = None
  ∧ find_content_container (Bs.decompose_all noise_selectors Ex.page_header) = None
  ∧ extract_article_images Ex.no_check Ex.no_check Ex.page_header article_url = Ok [banner]
  ∧ get_article_content Ex.no_check Ex.no_check (Ex.requests_get Ex.listing)
      (Ex.html_parser Ex.listing) article_url headers true
    ≠ ContentImages failure_marker [banner].
Proof. vm_compute. repeat split; done. Qed.

Section Extraction.

Variable check_bracketed_netloc check_nfkc : string → option exn.
Variable requests_get : string → gmap string string → res string.
Variable html_parser : string → res Bs.node.

Notation images_of := (extract_article_images check_bracketed_netloc check_nfkc).
Notation content_try :=
  (get_article_content_try check_bracketed_netloc check_nfkc requests_get html_parser).
Notation content_of :=
  (get_article_content check_bracketed_netloc check_nfkc requests_get html_parser).

Lemma for_res_inv {A B} (f : A → res B) (l : list A) (ys : list B) :
  for_res f l = Ok ys → Forall2 (λ x y, f x = Ok y) l ys.
Proof.
  revert ys. induction l as [|x l IH]; intros ys; cbn [for_res].
  - intros [= <-]. constructor.
  - intros (y & Hy & H)%res_bind_ok. apply res_bind_ok in H as (ys' & Hys & H).
    simplify_eq. constructor; [done|by apply IH].
Qed.

Lemma omap_id_Forall {A B} (f : A → res (option B)) (P : B → Prop) (l : list A)
    (ys : list (option B)) :
  (∀ x y, f x = Ok (Some y) → P y) →
  Forall2 (λ x y, f x = Ok y) l ys → Forall P (omap id ys).
Proof.
  intros Hf H. induction H as [|x [y|] l ys Hxy _ IH]; csimpl; [constructor| |done].
  constructor; [by eapply Hf|done].
Qed.

Lemma omap_id_length {B} (ys : list (option B)) : length (omap id ys) ≤ length ys.
Proof. induction ys as [|[y|] ys IH]; csimpl; lia. Qed.

Lemma extracted_images_unflagged (container : Bs.node) (base_url : string)
    (found : list image) :
  images_of container base_url = Ok found →
  Forall (λ img, img_is_thumbnail img = None) found.
Proof.
  unfold extract_article_images.
  intros (a & Ha & H)%res_bind_ok. apply res_bind_ok in H as (b & Hb & H). simplify_eq.
  apply Forall_app. split.
  - eapply omap_id_Forall; [|by apply for_res_inv].
    intros img im. unfold image_of_img. cbv zeta.
    intros (w & _ & H)%res_bind_ok. destruct w; [done|].
    apply res_bind_ok in H as (h & _ & H). destruct h; [done|].
    destruct (existsb _ _); [done|]. destruct (first_attr _ _); [|done].
    apply res_bind_ok in H as (u & _ & H). by simplify_eq.
  - eapply omap_id_Forall; [|by apply for_res_inv].
    intros el im. unfold image_of_style. cbv zeta.
    destruct (Py.contains _ _); [|done]. destruct (BgImage.search _); [|done].
    intros (u & _ & H)%res_bind_ok. by simplify_eq.
Qed.

(** X10. [extract_article_images] returns at most one entry for each [img]
    element and each element with a [style] attribute of the region, and
    none of its entries carries the thumbnail flag. *)
Theorem extracted_images_are_plain (container : Bs.node) (base_url : string)
    (found : list image) :
  images_of container base_url = Ok found →
  length found ≤ length (Bs.find_all (Bs.named ["img"]) container)
                 + length (Bs.find_all (Bs.has_attr "style") container)
  ∧ Forall (λ img, img_is_thumbnail img = None) found.
Proof.
  intros Hfound. split; [|by eapply extracted_images_unflagged].
  unfold extract_article_images in Hfound.
  apply res_bind_ok in Hfound as (a & Ha & H).
  apply res_bind_ok in H as (b & Hb & H). simplify_eq.
  rewrite length_app.
  apply for_res_inv, Forall2_length in Ha. apply for_res_inv, Forall2_length in Hb.
  pose proof (omap_id_length a). pose proof (omap_id_length b). lia.
Qed.

(** The images that [get_article_content] returns never carry the
    thumbnail flag. *)
Lemma content_images_unflagged (article_url : string) (h : gmap string string)
    (extract_images : bool) :
  Forall (λ img, img_is_thumbnail img = None)
    (result_images (content_of article_url h extract_images)).
Proof.
  unfold get_article_content.
  destruct (content_try article_url h extract_images) as [r|e] eqn:Htry;
    [|unfold pack; destruct extract_images; constructor].
  unfold get_article_content_try in Htry.
  apply res_bind_ok in Htry as (text & _ & H). apply res_bind_ok in H as (soup & _ & H).
  cbv zeta in H. destruct (find_content_container _) as [c|].
  - apply res_bind_ok in H as (imgs & Hi & H). simplify_eq.
    destruct extract_images; simpl; [|constructor].
    by apply extracted_images_unflagged in Hi.
  - apply res_bind_ok in H as (imgs & Hi & H). simplify_eq.
    destruct extract_images; simpl; [|constructor].
    by apply extracted_images_unflagged in Hi.
Qed.

(** X11. Asking [get_article_content] for images changes the content in one case
    only: when the request, the parser or the image extraction raises, the
    content is the error text and there is no image. Otherwise the content
    is the one returned without images. *)
Theorem images_leave_content (article_url : string) (h : gmap string string) :
  (∃ found,
     content_of article_url h true
     = ContentImages (result_content (content_of article_url h false)) found)
  ∨ (∃ e,
       content_of article_url h true
       = ContentImages ("Error fetching article content: " +:+ exn_str e) []).
Proof.
  unfold get_article_content, get_article_content_try.
  destruct (requests_get article_url h) as [text|e]; cbn [res_bind]; [|right; by exists e].
  destruct (html_parser text) as [soup|e]; cbn [res_bind]; [|right; by exists e].
  cbv zeta. destruct (find_content_container _) as [c|].
  - destruct (images_of _ article_url) as [found|e]; cbn [res_bind];
      [left; by exists found | right; by exists e].
  - destruct (images_of _ article_url) as [found|e]; cbn [res_bind];
      [left; by exists found | right; by exists e].
Qed.

Lemma by_selector_long (selectors : list Bs.selector) (soup c : Bs.node) :
  by_selector selectors soup = Some c → 200 < text_len c ∧ c ∈ Bs.descendants soup.
Proof.
  induction selectors as [|sel rest IH]; [done|]. cbn [by_selector].
  destruct (head _) as [c'|] eqn:Hhead; [|done]. intros [= <-].
  apply head_Some_elem_of, list_elem_of_filter in Hhead as [Hlen Hin].
  split; [by apply Nat.ltb_lt, Is_true_true|].
  unfold Bs.select in Hin. by apply list_elem_of_filter in Hin as [_ ?].
Qed.

(** X21. A content container is an element of the page with more than 200
    characters of text, white space at both ends aside: on a page where
    no element has that much, none is found. *)
Theorem content_container_is_long (soup c : Bs.node) :
  find_content_container soup = Some c →
  200 < text_len c ∧ c ∈ Bs.descendants soup.
Proof.
  assert (∀ c', by_text_block soup = Some c' →
                200 < text_len c' ∧ c' ∈ Bs.descendants soup) as Hblock.
  { intros c'. unfold by_text_block, Bs.find.
    intros [Hp Hin]%head_Some_elem_of%list_elem_of_filter.
    apply andb_prop_elim in Hp as [[_ Hlen]%andb_prop_elim _].
    apply Is_true_true, Nat.ltb_lt in Hlen. split; [lia|done]. }
  unfold find_content_container. cbv zeta.
  destruct (by_selector content_selectors soup) as [c0|] eqn:Hsel; [|by apply Hblock].
  apply by_selector_long in Hsel.
  destruct (text_len c0 <? 200); [|by intros [= <-]].
  destruct (by_text_block soup) as [c'|] eqn:Hb; intros [= <-]; [by apply Hblock|done].
Qed.

End Extraction.

Section Runs.

Variable check_bracketed_netloc check_nfkc : string → option exn.
Variable requests_get : string → gmap string string → res string.
Variable html_parser : string → res Bs.node.
Variable makedirs : string → option exn.
Variable image_get : string → res string.
Variable write_image : string → string → option exn.
Variable generated_filename : string → string.
Variable now : nat → string.
Variable show_progress extract_images download_images : bool.
Variable images_folder : string.

Notation run := (get_latest_crypto_news check_bracketed_netloc check_nfkc requests_get
                   html_parser makedirs image_get write_image generated_filename now
                   show_progress extract_images download_images images_folder).
Notation run_try := (get_latest_crypto_news_try check_bracketed_netloc check_nfkc
                       requests_get html_parser makedirs image_get write_image
                       generated_filename now
                       show_progress extract_images download_images images_folder).
Notation run_loop := (loop check_bracketed_netloc check_nfkc requests_get
                        html_parser makedirs image_get write_image generated_filename now
                        show_progress extract_images download_images images_folder).
Notation process := (process_article check_bracketed_netloc check_nfkc requests_get
                       html_parser makedirs image_get write_image generated_filename now
                       show_progress extract_images download_images images_folder).
Notation build := (build_item check_bracketed_netloc check_nfkc requests_get
                     html_parser makedirs image_get write_image generated_filename now
                     show_progress extract_images download_images images_folder).
Notation fetch := (fetch_article check_bracketed_netloc check_nfkc requests_get
                     html_parser show_progress extract_images).
Notation get_all := (download_all check_bracketed_netloc check_nfkc makedirs image_get
                       write_image generated_filename show_progress download_images
                       images_folder).
Notation get_one := (download_one check_bracketed_netloc check_nfkc makedirs image_get
                       write_image generated_filename).
Notation thumbnail := (thumbnail_of check_bracketed_netloc check_nfkc).
Notation unit_url := (article_url_of check_bracketed_netloc check_nfkc).
Notation get_content :=
  (get_article_content check_bracketed_netloc check_nfkc requests_get html_parser).

(** C8. When the listing page is fetched and parsed and each of the four
    approaches finds nothing on it, the run prints the diagnostic (the
    debug notice and the text of every [h1], [h2] and [h3]) and returns
    the empty list of items: neither the error dictionary nor an
    exception. *)
Theorem no_articles_empty_list (max_articles : Z) (text : string) (soup : Bs.node) :
  requests_get site headers = Ok text →
  html_parser text = Ok soup →
  latest_articles soup = [] →
  all_articles soup = [] →
  news_sections soup = [] →
  read_more_parents soup (story_items soup) = [] →
  run max_articles
  = ((if show_progress
      then ["Connecting to crypto.news..."; "Parsing homepage content..."] else [])
     ++ debug_lines soup,
     Items []).
Proof.
  intros Hget Hparse H1 H2 H3 H4.
  unfold get_latest_crypto_news, get_latest_crypto_news_try, locate_articles.
  rewrite Hget. simpl. rewrite Hparse, H1. simpl. rewrite H2. simpl.
  rewrite H3. simpl. rewrite H4. simpl.
  by destruct show_progress.
Qed.

(** *** The loop over the units *)

Notation fetched_of :=
  (fetched check_bracketed_netloc check_nfkc requests_get html_parser extract_images).
Notation entry := (local_entry check_bracketed_netloc check_nfkc makedirs image_get
                     write_image).

(** The content and the images of a unit do not depend on the number of
    units, which is only printed. *)
Lemma fetch_outcome (total i : nat) (title : string) (thumb : option image)
    (u : option string) :
  outcome (fetch total i title thumb u) = Ok (fetched_of thumb u).
Proof.
  unfold fetch_article, fetched. destruct u as [x|]; [|done].
  destruct (Py.truthy x); [|done].
  rewrite outcome_bind, outcome_when. simpl. by destruct extract_images.
Qed.

Lemma fetched_images_flag (thumb : option image) (u : option string) :
  (if extract_images then (fetched_of thumb u).2 else []) = (fetched_of thumb u).2.
Proof.
  unfold fetched. destruct u as [x|]; [|by destruct extract_images].
  destruct (Py.truthy x); by destruct extract_images.
Qed.

(** What an item is made of. *)
Lemma build_inv (total i : nat) (article : Bs.node) (thumb : option image)
    (u : option string) (item : news_item) :
  outcome (build total i article thumb u) = Ok item →
  ∃ local,
    outcome (get_all i (title_of article) (fetched_of thumb u).2) = Ok local
    ∧ item = NewsItem (title_of article) u (timestamp_of article) (tags_of article)
               (summary_of article (timestamp_of article)) (fetched_of thumb u).1 (now i)
               (fetched_of thumb u).2
               (if download_images then local else []).
Proof.
  unfold build_item. rewrite outcome_bind, fetch_outcome. simpl.
  pose proof (fetched_images_flag thumb u) as Hflag.
  destruct (fetched_of thumb u) as [content imgs].
  rewrite outcome_bind. intros (local & Hl & H)%res_bind_ok.
  exists local. split; [done|]. inversion H. simpl in Hflag. by rewrite Hflag.
Qed.

Lemma build_total (t1 t2 i : nat) (article : Bs.node) (thumb : option image)
    (u : option string) :
  outcome (build t1 i article thumb u) = outcome (build t2 i article thumb u).
Proof.
  unfold build_item. by rewrite !outcome_bind, !fetch_outcome.
Qed.

(** One turn of the loop: the unit is skipped when its URL was seen
    before, and gives one more item otherwise. *)
Lemma process_inv (total i : nat) (st st' : loop_state) (article : Bs.node) :
  outcome (process total st i article) = Ok st' →
  ∃ thumb u,
    thumbnail article = Ok thumb ∧ unit_url article = Ok u
    ∧ ((∃ x, u = Some x ∧ x ∈ processed_urls st ∧ st' = st)
       ∨ (∃ item,
            outcome (build total i article thumb u) = Ok item
            ∧ (∀ x, u = Some x → x ∉ processed_urls st)
            ∧ st' = LoopState (news_items st ++ [item])
                      (match u with
                       | Some x => {[x]} ∪ processed_urls st
                       | None => processed_urls st
                       end))).
Proof.
  unfold process_article. rewrite outcome_bind, outcome_lift.
  intros (thumb & Ht & H)%res_bind_ok. rewrite outcome_bind, outcome_lift in H.
  apply res_bind_ok in H as (u & Hu & H). exists thumb, u. do 2 (split; [done|]).
  destruct u as [x|].
  - case_bool_decide as Hin.
    + left. exists x. rewrite outcome_ret in H. by simplify_eq.
    + right. rewrite outcome_bind in H. apply res_bind_ok in H as (item & Hi & H).
      exists item. rewrite outcome_ret in H. simplify_eq.
      split; [done|]. split; [|done]. by intros ? [= <-].
  - right. rewrite outcome_bind in H. apply res_bind_ok in H as (item & Hi & H).
    exists item. rewrite outcome_ret in H. by simplify_eq.
Qed.

Lemma process_total (t1 t2 i : nat) (st : loop_state) (article : Bs.node) :
  outcome (process t1 st i article) = outcome (process t2 st i article).
Proof.
  unfold process_article. rewrite !outcome_bind, !outcome_lift.
  destruct (thumbnail article) as [thumb|]; cbn [res_bind]; [|done].
  rewrite !outcome_bind, !outcome_lift.
  destruct (unit_url article) as [[x|]|]; cbn [res_bind]; [| |done].
  - case_bool_decide; [done|]. by rewrite !outcome_bind, (build_total t1 t2).
  - by rewrite !outcome_bind, (build_total t1 t2).
Qed.

Lemma loop_cons (total : nat) (st : loop_state) (i : nat) (article : Bs.node)
    (rest : list (nat * Bs.node)) :
  outcome (run_loop total st ((i, article) :: rest))
  = (st' <- outcome (process total st i article) ; outcome (run_loop total st' rest)).
Proof. cbn [loop]. by rewrite outcome_bind. Qed.

Lemma loop_total (t1 t2 : nat) (st : loop_state) (l : list (nat * Bs.node)) :
  outcome (run_loop t1 st l) = outcome (run_loop t2 st l).
Proof.
  revert st. induction l as [|[i a] l IH]; intros st; [done|].
  rewrite !loop_cons, (process_total t1 t2).
  destruct (outcome (process t2 st i a)); cbn [res_bind]; [apply IH | done].
Qed.

Lemma loop_app (total : nat) (st : loop_state) (l1 l2 : list (nat * Bs.node)) :
  outcome (run_loop total st (l1 ++ l2))
  = (st' <- outcome (run_loop total st l1) ; outcome (run_loop total st' l2)).
Proof.
  revert st. induction l1 as [|[i a] l1 IH]; intros st; [done|].
  rewrite <- app_comm_cons, !loop_cons.
  destruct (outcome (process total st i a)); cbn [res_bind]; [apply IH | done].
Qed.

(** A run that returns items has fetched and parsed the listing page and
    has gone through the loop over the located units, cut to the limit. *)
Lemma run_inv (max_articles : Z) (out : list string) (items : list news_item) :
  run max_articles = (out, Items items) →
  ∃ text soup st,
    requests_get site headers = Ok text ∧ html_parser text = Ok soup
    ∧ outcome (run_loop (length (limit max_articles (locate_articles soup)))
                 (LoopState [] ∅)
                 (enumerate_from 0 (limit max_articles (locate_articles soup)))) = Ok st
    ∧ items = news_items st.
Proof.
  unfold get_latest_crypto_news. intros H.
  assert (outcome (run_try max_articles) = Ok items) as Ho.
  { destruct (run_try max_articles) as [o [its|[]]]; by simplify_eq. }
  clear H. unfold get_latest_crypto_news_try in Ho.
  rewrite outcome_bind, outcome_when in Ho. cbn [res_bind] in Ho.
  rewrite outcome_bind, outcome_lift in Ho. apply res_bind_ok in Ho as (text & Ht & Ho).
  rewrite outcome_bind, outcome_when in Ho. cbn [res_bind] in Ho.
  rewrite outcome_bind, outcome_lift in Ho. apply res_bind_ok in Ho as (soup & Hs & Ho).
  exists text, soup. cbv zeta in Ho.
  destruct (locate_articles soup) as [|a l] eqn:Hl; cbn [is_nil] in Ho.
  - exists (LoopState [] ∅). unfold outcome in Ho. simpl in Ho. simplify_eq.
    repeat split; try done. unfold limit. by destruct (0 <? max_articles)%Z; rewrite ?take_nil.
  - rewrite outcome_bind, outcome_when in Ho. cbn [res_bind] in Ho.
    rewrite outcome_bind in Ho. apply res_bind_ok in Ho as (st & Hst & Ho).
    rewrite outcome_bind, outcome_when in Ho. cbn [res_bind] in Ho.
    rewrite outcome_ret in Ho. simplify_eq. by exists st.
Qed.

(** *** De-duplication *)

Lemma first_occurrences_fresh (seen : gset string) (urls : list (option string)) :
  NoDup (omap id (first_occurrences seen urls))
  ∧ ∀ x, x ∈ omap id (first_occurrences seen urls) → x ∉ seen.
Proof.
  revert seen. induction urls as [|[u|] urls IH]; intros seen; simpl.
  - split; [constructor | by intros x ?%elem_of_nil].
  - case_decide as Hin; [apply IH|]. simpl.
    destruct (IH ({[u]} ∪ seen)) as [Hnd Hfresh]. split.
    + constructor; [|done]. intros Hu%Hfresh. clear IH. set_solver.
    + clear IH. intros x [->|Hx%Hfresh]%elem_of_cons; set_solver.
  - apply IH.
Qed.

(** The URLs of the items that the loop adds are the first occurrences
    among the URLs of its units. *)
Lemma loop_urls (total i : nat) (st st' : loop_state) (articles : list Bs.node) :
  outcome (run_loop total st (enumerate_from i articles)) = Ok st' →
  ∃ urls,
    for_res unit_url articles = Ok urls
    ∧ url <$> news_items st'
      = (url <$> news_items st) ++ first_occurrences (processed_urls st) urls.
Proof.
  revert i st. induction articles as [|a l IH]; intros i st H.
  - exists []. unfold outcome in H. simpl in H. simplify_eq. by rewrite app_nil_r.
  - cbn [enumerate_from] in H. rewrite loop_cons in H.
    apply res_bind_ok in H as (st1 & H1 & H).
    apply process_inv in H1 as (thumb & u & _ & Hu & Hcase).
    destruct (IH _ _ H) as (urls & Hurls & Heq). exists (u :: urls).
    cbn [for_res]. rewrite Hu, Hurls. split; [done|]. rewrite Heq.
    destruct Hcase as [(x & -> & Hin & ->) | (item & Hi & Hfresh & ->)].
    + simpl. by rewrite decide_True.
    + apply build_inv in Hi as (local & _ & ->). simpl.
      rewrite fmap_app, <- app_assoc. simpl. destruct u as [x|]; [|done].
      by rewrite decide_False by (by apply Hfresh).
Qed.

(** C4. The items of a run carry pairwise different URLs, the items
    without URL aside: their URLs are the first occurrences among the URLs
    of the located units (cut to the limit), so a unit whose URL an
    earlier unit had gives no item. *)
Theorem no_duplicate_urls (max_articles : Z) (out : list string)
    (items : list news_item) :
  run max_articles = (out, Items items) →
  NoDup (omap url items)
  ∧ ∃ text soup urls,
      requests_get site headers = Ok text ∧ html_parser text = Ok soup
      ∧ for_res unit_url (limit max_articles (locate_articles soup)) = Ok urls
      ∧ url <$> items = first_occurrences ∅ urls.
Proof.
  intros (text & soup & st & Ht & Hs & Hloop & ->)%run_inv.
  apply loop_urls in Hloop as (urls & Hurls & Heq). simpl in Heq.
  split.
  - replace (omap url (news_items st)) with (omap id (url <$> news_items st)).
    + rewrite Heq. apply first_occurrences_fresh.
    + clear. induction (news_items st) as [|x l IH]; [done|].
      csimpl. rewrite <- IH. by destruct (url x).
  - by exists text, soup, urls.
Qed.

(** *** Truncation *)

Lemma run_try_outcome (max_articles : Z) (text : string) (soup : Bs.node) :
  requests_get site headers = Ok text → html_parser text = Ok soup →
  outcome (run_try max_articles)
  = (st <- outcome (run_loop (length (limit max_articles (locate_articles soup)))
                      (LoopState [] ∅)
                      (enumerate_from 0 (limit max_articles (locate_articles soup)))) ;
     Ok (news_items st)).
Proof.
  intros Ht Hs. unfold get_latest_crypto_news_try.
  rewrite outcome_bind, outcome_when. cbn [res_bind].
  rewrite outcome_bind, outcome_lift, Ht. cbn [res_bind].
  rewrite outcome_bind, outcome_when. cbn [res_bind].
  rewrite outcome_bind, outcome_lift, Hs. cbn [res_bind]. cbv zeta.
  destruct (locate_articles soup) as [|a l] eqn:Hl; cbn [is_nil].
  - unfold limit. by destruct (0 <? max_articles)%Z; rewrite ?take_nil.
  - rewrite outcome_bind, outcome_when. cbn [res_bind]. rewrite outcome_bind.
    destruct (outcome (run_loop _ _ _)) as [st|e]; cbn [res_bind]; [|done].
    by rewrite outcome_bind, outcome_when.
Qed.

Lemma run_of_outcome (max_articles : Z) (items : list news_item) :
  outcome (run_try max_articles) = Ok items →
  run max_articles = ((run_try max_articles).1, Items items).
Proof.
  unfold get_latest_crypto_news, outcome.
  destruct (run_try max_articles) as [o [its|e]]; simpl; [|done]. by intros [= ->].
Qed.

Lemma loop_grows (total : nat) (st st' : loop_state) (l : list (nat * Bs.node)) :
  outcome (run_loop total st l) = Ok st' →
  ∃ more, news_items st' = news_items st ++ more.
Proof.
  revert st. induction l as [|[i a] l IH]; intros st H.
  - exists []. unfold outcome in H. simpl in H. simplify_eq. by rewrite app_nil_r.
  - rewrite loop_cons in H. apply res_bind_ok in H as (st1 & H1 & H).
    destruct (IH _ H) as (more & ->).
    apply process_inv in H1 as (thumb & u & _ & _ & Hcase).
    destruct Hcase as [(x & _ & _ & ->) | (item & _ & _ & ->)]; [by exists more|].
    exists (item :: more). simpl. by rewrite <- app_assoc.
Qed.

Lemma enumerate_from_app {A} (i : nat) (l1 l2 : list A) :
  enumerate_from i (l1 ++ l2)
  = enumerate_from i l1 ++ enumerate_from (i + length l1) l2.
Proof.
  revert i. induction l1 as [|x l1 IH]; intros i; simpl.
  - by rewrite Nat.add_0_r.
  - by rewrite IH, Nat.add_succ_r.
Qed.

Lemma for_res_length {A B} (f : A → res B) (l : list A) (ys : list B) :
  for_res f l = Ok ys → length ys = length l.
Proof.
  revert ys. induction l as [|x l IH]; intros ys; simpl; [by intros [= <-]|].
  intros (y & _ & H)%res_bind_ok. apply res_bind_ok in H as (ys' & Hys & H).
  simplify_eq. simpl. by rewrite (IH ys').
Qed.

Lemma first_occurrences_length (seen : gset string) (urls : list (option string)) :
  length (first_occurrences seen urls) ≤ length urls.
Proof.
  revert seen. induction urls as [|[u|] urls IH]; intros seen; simpl; [lia| |].
  - case_decide; simpl; [specialize (IH seen) | specialize (IH ({[u]} ∪ seen))]; lia.
  - specialize (IH seen). lia.
Qed.

(** C1, as amended. When the run without limit returns items, the run
    with a positive limit [L] returns the items of the first [L] located
    units: the first [k] items of the run without limit, where [k] counts
    the first occurrences among the URLs of the first [L] units. So [k] is
    at most [L], and it is [L] when the page has [L] units or more and
    none of the first [L] is a duplicate. The cut is made on the units
    that the cascade located, before any unit is looked at. *)
Theorem limit_keeps_a_prefix (max_articles : Z) (out0 : list string)
    (items0 : list news_item) :
  (0 < max_articles)%Z →
  run 0 = (out0, Items items0) →
  ∃ out text soup urls,
    requests_get site headers = Ok text ∧ html_parser text = Ok soup
    ∧ for_res unit_url (take (Z.to_nat max_articles) (locate_articles soup)) = Ok urls
    ∧ run max_articles
      = (out, Items (take (length (first_occurrences ∅ urls)) items0))
    ∧ length (first_occurrences ∅ urls) ≤ Z.to_nat max_articles
    ∧ (first_occurrences ∅ urls = urls →
       Z.to_nat max_articles ≤ length (locate_articles soup) →
       length (first_occurrences ∅ urls) = Z.to_nat max_articles).
Proof.
  intros Hpos (text & soup & st0 & Ht & Hs & Hloop & ->)%run_inv.
  set (n := Z.to_nat max_articles). set (l := locate_articles soup) in *.
  assert (limit 0 l = l) as Hl0 by done.
  assert (limit max_articles l = take n l) as HlL.
  { unfold limit. by rewrite (proj2 (Z.ltb_lt _ _) Hpos). }
  rewrite Hl0 in Hloop. rewrite <- (take_drop n l) in Hloop at 2.
  rewrite enumerate_from_app, loop_app in Hloop.
  apply res_bind_ok in Hloop as (stL & HL & Hrest).
  rewrite (loop_total _ (length (take n l))) in HL.
  destruct (loop_urls _ _ _ _ _ HL) as (urls & Hurls & Heq). simpl in Heq.
  destruct (loop_grows _ _ _ _ Hrest) as (more & Hmore).
  assert (length (first_occurrences ∅ urls) = length (news_items stL)) as Hlen.
  { by rewrite <- Heq, length_fmap. }
  exists (run_try max_articles).1, text, soup, urls.
  do 3 (split; [done|]). split; [|split].
  - rewrite Hlen, Hmore, take_app_length. apply run_of_outcome.
    rewrite (run_try_outcome _ _ _ Ht Hs). fold l. rewrite HlL, HL. done.
  - pose proof (first_occurrences_length ∅ urls) as H1.
    apply for_res_length in Hurls. rewrite length_take in Hurls. lia.
  - intros -> Hn. apply for_res_length in Hurls. rewrite length_take in Hurls.
    fold l in Hn. lia.
Qed.

(** *** The items of a run *)

Lemma loop_items (P : news_item → Prop) (total : nat) (st st' : loop_state)
    (l : list (nat * Bs.node)) :
  (∀ i a thumb u item, outcome (build total i a thumb u) = Ok item → P item) →
  Forall P (news_items st) →
  outcome (run_loop total st l) = Ok st' →
  Forall P (news_items st').
Proof.
  intros Hbuild. revert st. induction l as [|[i a] l IH]; intros st Hst H.
  - unfold outcome in H. simpl in H. by simplify_eq.
  - rewrite loop_cons in H. apply res_bind_ok in H as (st1 & H1 & H).
    apply (IH st1); [|done].
    apply process_inv in H1 as (thumb & u & _ & _ & Hcase).
    destruct Hcase as [(x & _ & _ & ->) | (item & Hi & _ & ->)]; [done|].
    simpl. apply Forall_app. split; [done|]. constructor; [|constructor]. eauto.
Qed.

Lemma run_items (P : news_item → Prop) (max_articles : Z) (out : list string)
    (items : list news_item) (r : news_item) :
  (∀ total i a thumb u item, outcome (build total i a thumb u) = Ok item → P item) →
  run max_articles = (out, Items items) → r ∈ items → P r.
Proof.
  intros Hbuild (text & soup & st & _ & _ & Hloop & ->)%run_inv Hr.
  apply (loop_items P) in Hloop; [|by eauto|by constructor].
  by eapply Forall_forall in Hloop.
Qed.

Lemma existsb_eqb_false (a : string) (l : list string) :
  existsb (String.eqb a) l = false → a ∉ l.
Proof.
  induction l as [|b l IH]; simpl; [by intros _ ?%elem_of_nil|].
  intros [Hab Hl]%orb_false_elim [->|Hin]%elem_of_cons; [|by apply IH].
  by rewrite String.eqb_refl in Hab.
Qed.

Lemma add_thumbnail_distinct (thumb : option image) (body : list image) :
  NoDup (map img_url body) → NoDup (map img_url (add_thumbnail thumb body)).
Proof.
  intros Hnd. unfold add_thumbnail. destruct thumb as [t|]; [|done].
  destruct (existsb _ _) eqn:He; simpl; [done|].
  constructor; [|done]. by apply existsb_eqb_false.
Qed.

Lemma first_units_elem (seen : gset string) (units : list (Bs.node * option string))
    (p : Bs.node * option string) :
  p ∈ first_units seen units → p ∈ units.
Proof.
  revert seen. induction units as [|[a [u|]] units IH]; intros seen; cbn [first_units].
  - done.
  - destruct (decide (u ∈ seen)).
    + intros Hp%IH. by apply list_elem_of_further.
    + intros [->|Hp%IH]%elem_of_cons; [apply list_elem_of_here|by apply list_elem_of_further].
  - intros [->|Hp%IH]%elem_of_cons; [apply list_elem_of_here|by apply list_elem_of_further].
Qed.

Lemma first_units_sublist (seen : gset string) (units : list Bs.node)
    (urls : list (option string)) :
  (first_units seen (zip units urls)).*1 `sublist_of` units.
Proof.
  revert seen urls. induction units as [|a units IH]; intros seen [|[u|] urls];
    cbn [zip_with first_units]; try apply sublist_nil_l.
  - case_decide; [by apply sublist_cons|]. csimpl. by apply sublist_skip.
  - csimpl. by apply sublist_skip.
Qed.

(** The loop gives one item for each unit that is a first occurrence,
    in order, built from that unit, its thumbnail and its URL. *)
Lemma loop_built (total i : nat) (st st' : loop_state) (articles : list Bs.node) :
  outcome (run_loop total st (enumerate_from i articles)) = Ok st' →
  ∃ urls more,
    for_res unit_url articles = Ok urls
    ∧ news_items st' = news_items st ++ more
    ∧ Forall2 (λ au item, ∃ thumb j,
                 thumbnail au.1 = Ok thumb ∧ unit_url au.1 = Ok au.2
                 ∧ outcome (build total j au.1 thumb au.2) = Ok item)
        (first_units (processed_urls st) (zip articles urls)) more.
Proof.
  revert i st. induction articles as [|a l IH]; intros i st H.
  - exists [], []. unfold outcome in H. simpl in H. simplify_eq.
    rewrite app_nil_r. repeat split; constructor.
  - cbn [enumerate_from] in H. rewrite loop_cons in H.
    apply res_bind_ok in H as (st1 & H1 & H).
    destruct (IH _ _ H) as (urls & more & Hurls & Heq & Hall).
    apply process_inv in H1 as (thumb & u & Ht & Hu & Hcase).
    exists (u :: urls). cbn [for_res]. rewrite Hu, Hurls. cbn [res_bind zip_with].
    destruct Hcase as [(x & -> & Hin & ->) | (item & Hi & Hfresh & ->)].
    + exists more. do 2 (split; [done|]). cbn [first_units]. by rewrite decide_True.
    + exists (item :: more). split; [done|].
      split; [simpl in Heq; by rewrite Heq, <- app_assoc|].
      destruct u as [x|]; cbn [first_units].
      * rewrite decide_False by (by apply Hfresh). constructor; [|done].
        exists thumb, i. eauto.
      * constructor; [|done]. exists thumb, i. eauto.
Qed.

Lemma run_built (max_articles : Z) (out : list string) (items : list news_item) :
  run max_articles = (out, Items items) →
  ∃ text soup urls total,
    requests_get site headers = Ok text ∧ html_parser text = Ok soup
    ∧ for_res unit_url (limit max_articles (locate_articles soup)) = Ok urls
    ∧ Forall2 (λ au item, ∃ thumb j,
                 thumbnail au.1 = Ok thumb ∧ unit_url au.1 = Ok au.2
                 ∧ outcome (build total j au.1 thumb au.2) = Ok item)
        (first_units ∅ (zip (limit max_articles (locate_articles soup)) urls)) items.
Proof.
  intros (text & soup & st & Ht & Hs & Hloop & ->)%run_inv.
  apply loop_built in Hloop as (urls & more & Hurls & Heq & Hall).
  simpl in Heq. subst. exists text, soup, urls. eauto 10.
Qed.

(** Every item was built from a located unit within the limit, from the
    thumbnail and the URL of that unit. *)
Lemma run_item_unit (max_articles : Z) (out : list string) (items : list news_item)
    (r : news_item) :
  run max_articles = (out, Items items) → r ∈ items →
  ∃ text soup article thumb u total j,
    requests_get site headers = Ok text ∧ html_parser text = Ok soup
    ∧ article ∈ limit max_articles (locate_articles soup)
    ∧ thumbnail article = Ok thumb ∧ unit_url article = Ok u
    ∧ outcome (build total j article thumb u) = Ok r.
Proof.
  intros (text & soup & urls & total & Ht & Hs & Hurls & Hall)%run_built Hr.
  apply list_elem_of_lookup in Hr as [k Hk].
  destruct (Forall2_lookup_r _ _ _ _ _ Hall Hk)
    as ([a u] & Hau & thumb & j & Hthumb & Hu & Hbuild).
  apply list_elem_of_lookup_2, first_units_elem, elem_of_zip_l in Hau.
  exists text, soup, a, thumb, u, total, j. eauto 10.
Qed.

(** C2, as amended. Every item was made from a located unit within the
    limit. When the item has no URL or images are not asked for, it has
    no image, the thumbnail of the unit included. Otherwise its images
    are those [get_article_content] returns for its URL, with the
    thumbnail of the unit put first only when the unit has one and none
    of them has its URL. So the merge adds no duplicate;
    [extract_article_images] itself removes none, and when the images
    returned for the URL have pairwise different URLs, so have the images
    of the item. *)
Theorem thumbnail_merge_adds_no_duplicate (max_articles : Z) (out : list string)
    (items : list news_item) (r : news_item) :
  run max_articles = (out, Items items) → r ∈ items →
  ∃ text soup article thumb,
    requests_get site headers = Ok text ∧ html_parser text = Ok soup
    ∧ article ∈ limit max_articles (locate_articles soup)
    ∧ made_from article r
    ∧ thumbnail article = Ok thumb
    ∧ unit_url article = Ok (url r)
    ∧ images r
      = match url r with
        | Some x =>
            if Py.truthy x && extract_images
            then add_thumbnail thumb (result_images (get_content x headers true))
            else []
        | None => []
        end
    ∧ (∀ x, url r = Some x →
         NoDup (map img_url (result_images (get_content x headers true))) →
         NoDup (map img_url (images r))).
Proof.
  intros Hrun Hr.
  destruct (run_item_unit _ _ _ _ Hrun Hr)
    as (text & soup & a & thumb & u & total & j & Ht & Hs & Hin & Hthumb & Hu & Hbuild).
  exists text, soup, a, thumb. do 3 (split; [done|]).
  apply build_inv in Hbuild as (local & _ & ->). cbn [url images].
  split; [by repeat split|]. do 2 (split; [done|]).
  unfold fetched. destruct u as [x|]; [|split; [done|]; intros; constructor].
  destruct (Py.truthy x), extract_images; cbn [andb snd];
    (split; [done|]); intros ? [= <-] Hnd; try constructor.
  by apply add_thumbnail_distinct.
Qed.

(** *** Downloads *)

Notation get_image := (download_image check_bracketed_netloc check_nfkc makedirs
                         image_get write_image generated_filename).
Notation get_image_try := (download_image_try check_bracketed_netloc check_nfkc makedirs
                             image_get write_image generated_filename).
Notation was_downloaded := (downloaded makedirs image_get write_image).
Notation url_parse := (urlparse check_bracketed_netloc check_nfkc).

Lemma for_io_inv {A B} (f : A → io B) (l : list A) (ys : list B) :
  outcome (for_io f l) = Ok ys → Forall2 (λ x y, outcome (f x) = Ok y) l ys.
Proof.
  revert ys. induction l as [|x l IH]; intros ys; cbn [for_io].
  - rewrite outcome_ret. intros [= <-]. constructor.
  - rewrite outcome_bind. intros (y & Hy & H)%res_bind_ok.
    rewrite outcome_bind in H. apply res_bind_ok in H as (ys' & Hys & H).
    rewrite outcome_ret in H. simplify_eq. constructor; [done|by apply IH].
Qed.

Lemma truthy_app_r (a b : string) : Py.truthy b = true → Py.truthy (a +:+ b) = true.
Proof. destruct a; [done|]. by destruct b. Qed.

Lemma path_join_truthy (folder filename : string) :
  Py.truthy filename = true → Py.truthy (path_join folder filename) = true.
Proof.
  intros H. unfold path_join. repeat case_match; try done; auto using truthy_app_r.
Qed.

(** [download_image] returns the path exactly when the download
    succeeds, and [None] otherwise; it never raises. *)
Lemma download_image_outcome (img_url folder filename : string) :
  Py.truthy filename = true →
  outcome (get_image img_url folder filename)
  = Ok (if was_downloaded img_url folder filename
        then Some (path_join folder filename) else None).
Proof.
  intros Hf. unfold download_image, download_image_try, downloaded.
  rewrite Hf. cbn [negb]. unfold guard.
  destruct (makedirs folder); cbn [res_bind]; [done|].
  destruct (image_get img_url) as [ct|]; cbn [res_bind]; [|done].
  destruct (Py.startswith ct "image/"); cbn [negb andb]; [|done].
  by destruct (write_image _ _).
Qed.

Lemma get_one_inv (folder : string) (j : nat) (img : image) (ys : list local_image) :
  outcome (get_one folder j img) = Ok ys →
  (∃ parsed, url_parse (img_url img) = Ok parsed)
  ∧ ys = option_list (entry folder j img).
Proof.
  unfold download_one, local_entry. rewrite outcome_bind, outcome_lift.
  intros (parsed & Hp & H)%res_bind_ok. rewrite Hp. split; [by exists parsed|].
  cbv zeta in H. rewrite outcome_bind, download_image_outcome in H by done.
  cbn [res_bind] in H. rewrite outcome_ret in H. simplify_eq. cbv zeta.
  destruct (was_downloaded _ _ _); [|done].
  by rewrite path_join_truthy.
Qed.

Lemma get_all_inv (i : nat) (title : string) (imgs : list image)
    (local : list local_image) :
  download_images = true →
  outcome (get_all i title imgs) = Ok local →
  let folder := path_join images_folder ("article_" +:+ Py.str_of_nat (i + 1)) in
  Forall (λ img, ∃ parsed, url_parse (img_url img) = Ok parsed) imgs
  ∧ local = omap (λ p, entry folder p.1 p.2) (enumerate_from 0 imgs).
Proof.
  intros Hd. unfold download_all. rewrite Hd. cbn [andb].
  destruct imgs as [|img imgs]; cbn [is_nil negb].
  { rewrite outcome_ret. intros [= <-]. by split. }
  cbv zeta. rewrite outcome_bind, outcome_when. cbn [res_bind].
  rewrite outcome_bind. intros (found & Hfound & H)%res_bind_ok.
  rewrite outcome_ret in H. simplify_eq. apply for_io_inv in Hfound.
  remember (path_join images_folder _) as folder eqn:Hfolder. clear Hfolder.
  generalize dependent (img :: imgs). clear img imgs. intros imgs. generalize 0.
  intros k. revert k found. induction imgs as [|img imgs IH]; intros k found Hfound.
  - inversion Hfound. by split.
  - cbn [enumerate_from] in Hfound. inversion Hfound as [|? y ? ys Hy Hys]. subst.
    apply get_one_inv in Hy as [Hp ->]. destruct (IH _ _ Hys) as [Hall Heq].
    split; [by constructor|]. cbn [enumerate_from]. csimpl. rewrite <- Heq.
    by destruct (entry _ _ _).
Qed.

Lemma omap_enumerate_sublist {A B C} (f : nat → A → option B)
    (g : B → C) (h : A → C) (k : nat) (l : list A) :
  (∀ j x y, f j x = Some y → g y = h x) →
  map g (omap (λ p, f p.1 p.2) (enumerate_from k l)) `sublist_of` map h l.
Proof.
  intros Hf. revert k. induction l as [|x l IH]; intros k; cbn [enumerate_from]; csimpl.
  - constructor.
  - destruct (f k x) as [y|] eqn:Hy; simpl.
    + rewrite (Hf _ _ _ Hy). by constructor.
    + by constructor.
Qed.

(** C9. With downloads enabled, the local images of an item are the
    entries of its images whose download succeeds, in the order of the
    images: an entry has the URL, the texts and the thumbnail flag of its
    image and the path it was written to; an image is left out exactly
    when making the folder, the request or the writing raises, or the
    content type does not start with [image/]. In particular the URLs of
    the local images are a sublist of the URLs of the images. *)
Theorem local_images_follow_images (max_articles : Z) (out : list string)
    (items : list news_item) (r : news_item) :
  download_images = true →
  run max_articles = (out, Items items) → r ∈ items →
  ∃ i, let folder := path_join images_folder ("article_" +:+ Py.str_of_nat (i + 1)) in
    Forall (λ img, ∃ parsed, url_parse (img_url img) = Ok parsed) (images r)
    ∧ local_images r = omap (λ p, entry folder p.1 p.2) (enumerate_from 0 (images r))
    ∧ map loc_url (local_images r) `sublist_of` map img_url (images r).
Proof.
  intros Hd Hrun Hr. pattern r. eapply run_items; [|exact Hrun|exact Hr].
  clear Hrun Hr r items out.
  intros total i a thumb u item (local & Hl & ->)%build_inv. exists i. simpl.
  rewrite Hd. destruct (get_all_inv _ _ _ _ Hd Hl) as [Hall ->].
  do 2 (split; [done|]). apply omap_enumerate_sublist.
  intros j img y. unfold local_entry. repeat case_match; try done. by intros [= <-].
Qed.

(** *** Further properties of a run *)

(** X1. A positive limit bounds the number of items. *)
Theorem limit_bounds_items (max_articles : Z) (out : list string)
    (items : list news_item) :
  (0 < max_articles)%Z →
  run max_articles = (out, Items items) →
  length items ≤ Z.to_nat max_articles.
Proof.
  intros Hpos (text & soup & st & _ & _ & Hloop & ->)%run_inv.
  apply loop_urls in Hloop as (urls & Hurls & Heq). simpl in Heq.
  apply for_res_length in Hurls.
  assert (length (news_items st) = length (first_occurrences ∅ urls)) as ->.
  { by rewrite <- Heq, length_fmap. }
  pose proof (first_occurrences_length ∅ urls) as Hle.
  unfold limit in Hurls. rewrite (proj2 (Z.ltb_lt _ _) Hpos), length_take in Hurls. lia.
Qed.

Lemma get_all_nil (i : nat) (title : string) : outcome (get_all i title []) = Ok [].
Proof. unfold download_all. by rewrite andb_false_r. Qed.

(** X2. Without image extraction an item has neither images nor local images,
    whether or not downloads are enabled; without downloads it has no
    local images. *)
Theorem images_need_flags (max_articles : Z) (out : list string)
    (items : list news_item) (r : news_item) :
  run max_articles = (out, Items items) → r ∈ items →
  (extract_images = false → images r = [] ∧ local_images r = [])
  ∧ (download_images = false → local_images r = []).
Proof.
  intros Hrun Hr. pattern r. eapply run_items; [|exact Hrun|exact Hr].
  clear Hrun Hr r items out.
  intros total i a thumb u item (local & Hl & ->)%build_inv. simpl. split.
  - intros He. rewrite <- (fetched_images_flag thumb u) in Hl |- *. rewrite He in Hl |- *.
    rewrite get_all_nil in Hl. simplify_eq. by destruct download_images.
  - by intros ->.
Qed.

(** X3. Every tag of an item is a non-empty text of fewer than 30 characters. *)
Theorem tags_are_short (max_articles : Z) (out : list string)
    (items : list news_item) (r : news_item) :
  run max_articles = (out, Items items) → r ∈ items →
  Forall (λ tag, tag ≠ EmptyString ∧ Py.len tag < 30) (tags r).
Proof.
  intros Hrun Hr. pattern r. eapply run_items; [|exact Hrun|exact Hr].
  clear Hrun Hr r items out.
  intros total i a thumb u item (local & _ & ->)%build_inv. simpl.
  unfold tags_of. apply Forall_forall. intros tag [Hp _]%list_elem_of_filter.
  apply andb_prop_elim in Hp as [Ht Hlen]. split.
  - intros ->. done.
  - by apply Nat.ltb_lt, Is_true_true.
Qed.

Lemma summary_of_cases (article : Bs.node) (ts : string) :
  summary_of article ts = EmptyString ∨ 10 < Py.len (summary_of article ts).
Proof.
  unfold summary_of.
  repeat match goal with
         | |- context [match ?x with _ => _ end] => destruct x eqn:?
         end; auto; right;
    repeat match goal with
           | H : _ && _ = true |- _ => apply andb_prop in H as [? H]
           end; by apply Nat.ltb_lt.
Qed.

(** X4. The summary of an item is empty or longer than 10 characters. *)
Theorem summary_is_empty_or_long (max_articles : Z) (out : list string)
    (items : list news_item) (r : news_item) :
  run max_articles = (out, Items items) → r ∈ items →
  summary r = EmptyString ∨ 10 < Py.len (summary r).
Proof.
  intros Hrun Hr. pattern r. eapply run_items; [|exact Hrun|exact Hr].
  clear Hrun Hr r items out.
  intros total i a thumb u item (local & _ & ->)%build_inv. simpl.
  apply summary_of_cases.
Qed.

(** X5. The items follow the order of the listing and none is invented: they
    are made, one each and in order, from the located units (cut to the
    limit) that have no URL or whose URL no earlier unit had. Each item
    carries the URL of its unit and the title, the timestamp, the tags
    and the summary computed from it. *)
Theorem items_follow_units (max_articles : Z) (out : list string)
    (items : list news_item) :
  run max_articles = (out, Items items) →
  ∃ text soup urls,
    requests_get site headers = Ok text ∧ html_parser text = Ok soup
    ∧ for_res unit_url (limit max_articles (locate_articles soup)) = Ok urls
    ∧ (first_units ∅ (zip (limit max_articles (locate_articles soup)) urls)).*1
      `sublist_of` limit max_articles (locate_articles soup)
    ∧ Forall2 (λ au item, made_from au.1 item ∧ url item = au.2)
        (first_units ∅ (zip (limit max_articles (locate_articles soup)) urls)) items.
Proof.
  intros (text & soup & urls & total & Ht & Hs & Hurls & Hall)%run_built.
  exists text, soup, urls. do 3 (split; [done|]).
  split; [apply first_units_sublist|].
  eapply Forall2_impl; [exact Hall|].
  intros [a u] item (thumb & j & _ & _ & (local & _ & ->)%build_inv).
  by repeat split.
Qed.

Lemma loop_units_resolved (total i : nat) (st st' : loop_state) (articles : list Bs.node) :
  outcome (run_loop total st (enumerate_from i articles)) = Ok st' →
  Forall (λ a, (∃ thumb, thumbnail a = Ok thumb) ∧ ∃ u, unit_url a = Ok u) articles.
Proof.
  revert i st. induction articles as [|a l IH]; intros i st H; [constructor|].
  cbn [enumerate_from] in H. rewrite loop_cons in H.
  apply res_bind_ok in H as (st1 & H1 & H).
  apply process_inv in H1 as (thumb & u & Ht & Hu & _).
  constructor; [eauto|by eapply IH].
Qed.

(** X6. One unit is enough to lose the run: when the listing page is fetched and
    parsed and joining the thumbnail source or the link of some unit within
    the limit raises, the run returns the error dictionary and no item,
    whatever the other units are, duplicates to be skipped included. *)
Theorem bad_unit_fails_the_run (max_articles : Z) (text : string) (soup : Bs.node)
    (article : Bs.node) (e : exn) :
  requests_get site headers = Ok text → html_parser text = Ok soup →
  article ∈ limit max_articles (locate_articles soup) →
  thumbnail article = Raise e ∨ unit_url article = Raise e →
  ∃ out error, run max_articles = (out, Error error).
Proof.
  intros Ht Hs Hin Hraise.
  destruct (run max_articles) as [out [items|error]] eqn:Hrun; [|by eauto].
  apply run_inv in Hrun as (text' & soup' & st & Ht' & Hs' & Hloop & _).
  rewrite Ht in Ht'. simplify_eq. rewrite Hs in Hs'. simplify_eq.
  apply loop_units_resolved in Hloop.
  eapply Forall_forall in Hloop as [[thumb Hthumb] [u Hu]]; [|exact Hin].
  destruct Hraise as [H|H]; congruence.
Qed.

(** X7. An item without URL has no content, no images and no local images; an
    item with a URL has the content that [get_article_content] returns
    for it. *)
Theorem content_follows_url (max_articles : Z) (out : list string)
    (items : list news_item) (r : news_item) :
  run max_articles = (out, Items items) → r ∈ items →
  match url r with
  | None => content r = EmptyString ∧ images r = [] ∧ local_images r = []
  | Some u =>
      Py.truthy u = true →
      content r = result_content (get_content u headers extract_images)
  end.
Proof.
  intros Hrun Hr. pattern r. eapply run_items; [|exact Hrun|exact Hr].
  clear Hrun Hr r items out.
  intros total i a thumb u item (local & Hl & ->)%build_inv. simpl.
  unfold fetched in *. destruct u as [x|].
  - intros ->. by destruct extract_images.
  - simpl in *. rewrite get_all_nil in Hl. simplify_eq. by destruct download_images.
Qed.

Lemma path_join_under (folder filename : string) :
  Py.startswith filename "/" = false →
  Py.startswith (path_join folder filename) folder = true.
Proof.
  intros H. unfold path_join. rewrite H.
  destruct (negb (Py.truthy folder) || Py.endswith folder "/"); apply startswith_app.
Qed.

(** X8. With downloads enabled, every local image of an item was written below
    the folder of its article, [article_N] in the images folder, under a
    name that starts with [image_]. *)
Theorem local_images_in_article_folder (max_articles : Z) (out : list string)
    (items : list news_item) (r : news_item) :
  download_images = true →
  run max_articles = (out, Items items) → r ∈ items →
  ∃ i, Forall (λ l, ∃ name,
                 loc_local_path l
                 = path_join (path_join images_folder ("article_" +:+ Py.str_of_nat (i + 1)))
                     ("image_" +:+ name)
                 ∧ Py.startswith (loc_local_path l)
                     (path_join images_folder ("article_" +:+ Py.str_of_nat (i + 1))) = true)
         (local_images r).
Proof.
  intros Hd Hrun Hr. pattern r. eapply run_items; [|exact Hrun|exact Hr].
  clear Hrun Hr r items out.
  intros total i a thumb u item (local & Hl & ->)%build_inv. exists i. simpl.
  rewrite Hd. destruct (get_all_inv _ _ _ _ Hd Hl) as [_ ->].
  apply Forall_forall. intros l ([j img] & _ & Hentry)%list_elem_of_omap.
  unfold local_entry in Hentry. simpl in Hentry.
  destruct (url_parse _) as [parsed|]; [|done].
  destruct (was_downloaded _ _ _); [|done]. simplify_eq. simpl.
  eexists. split; [reflexivity|]. by apply path_join_under.
Qed.

(** X9. Only the first image of an item can carry the thumbnail flag. *)
Theorem thumbnail_flag_only_first (max_articles : Z) (out : list string)
    (items : list news_item) (r : news_item) :
  run max_articles = (out, Items items) → r ∈ items →
  Forall (λ img, img_is_thumbnail img = None) (tail (images r)).
Proof.
  intros Hrun Hr. pattern r. eapply run_items; [|exact Hrun|exact Hr].
  clear Hrun Hr r items out.
  intros total i a thumb u item (local & _ & ->)%build_inv. simpl.
  assert (∀ l : list image,
            Forall (λ img, img_is_thumbnail img = None) l →
            Forall (λ img, img_is_thumbnail img = None) (tail l)) as Htail.
  { intros [|x l] H; [done|]. by inversion H. }
  unfold fetched. destruct u as [x|]; [|constructor].
  destruct (Py.truthy x); [|constructor]. destruct extract_images; [|constructor]. simpl.
  pose proof (content_images_unflagged check_bracketed_netloc check_nfkc requests_get
                html_parser x headers true) as Hbody.
  unfold add_thumbnail. destruct thumb as [t|]; [|by apply Htail].
  destruct (negb _); [done|by apply Htail].
Qed.

(** X18. [download_image] never raises. With a file name given, it returns the
    path of the file in the folder when the download succeeds and prints
    nothing; otherwise it returns [None], after one line on the error if
    something raised, and silently if only the content type is not an
    image. *)
Theorem download_image_result (img_url folder filename : string) :
  Py.truthy filename = true →
  ∃ out,
    get_image img_url folder filename
    = (out, Ok (if was_downloaded img_url folder filename
                then Some (path_join folder filename) else None))
    ∧ length out ≤ 1
    ∧ (was_downloaded img_url folder filename = true → out = [])
    ∧ (makedirs folder = None →
       (∃ content_type, image_get img_url = Ok content_type
                        ∧ Py.startswith content_type "image/" = false) →
       out = []).
Proof.
  intros Hf. unfold download_image, download_image_try, downloaded.
  rewrite Hf. cbn [negb]. unfold guard.
  destruct (makedirs folder) as [e|]; cbn [res_bind].
  { eexists. split; [reflexivity|]. split; [simpl; lia|]. split; done. }
  destruct (image_get img_url) as [ct|e]; cbn [res_bind].
  2:{ eexists. split; [reflexivity|]. split; [simpl; lia|]. split; [done|].
      by intros _ (? & ? & _). }
  destruct (Py.startswith ct "image/") eqn:Hct; cbn [negb andb].
  2:{ eexists. split; [reflexivity|]. split; [simpl; lia|]. done. }
  destruct (write_image _ _) as [e|]; cbn [res_bind].
  - eexists. split; [reflexivity|]. split; [simpl; lia|]. split; [done|].
    intros _ (ct' & [= <-] & Hct'). congruence.
  - eexists. split; [reflexivity|]. split; [simpl; lia|]. done.
Qed.

(** X19. When the request for the listing page or its parsing raises, the run
    returns the error dictionary: its text starts with [Request error: ]
    for an exception of [requests] and with [An error occurred: ] for any
    other, and ends with the text of the exception. *)
Theorem listing_failure_is_an_error (max_articles : Z) (e : exn) :
  requests_get site headers = Raise e
  ∨ (∃ text, requests_get site headers = Ok text ∧ html_parser text = Raise e) →
  ∃ out,
    run max_articles
    = (out, Error ((match e with
                    | RequestException _ => "Request error: "
                    | _ => "An error occurred: "
                    end) +:+ exn_str e)).
Proof.
  unfold get_latest_crypto_news, get_latest_crypto_news_try.
  intros [He | (text & Ht & He)].
  - rewrite He. destruct show_progress, e; simpl; eauto.
  - rewrite Ht. simpl. rewrite He. destruct show_progress, e; simpl; eauto.
Qed.

Lemma first_occurrences_none (seen : gset string) (urls : list (option string)) :
  length (filter (λ u, u = None) (first_occurrences seen urls))
  = length (filter (λ u, u = None) urls).
Proof.
  revert seen.
  induction urls as [|[u|] urls IH]; intros seen; cbn [first_occurrences]; [done| |].
  - rewrite (filter_cons_False _ (Some u) urls) by done. case_decide; [done|].
    by rewrite filter_cons_False by done.
  - rewrite !filter_cons_True by done. cbn [length]. by rewrite IH.
Qed.

(** X20. De-duplication leaves the units without link alone: the run has as
    many items without URL as there are units without link among the
    located units (cut to the limit). *)
Theorem linkless_units_are_kept (max_articles : Z) (out : list string)
    (items : list news_item) :
  run max_articles = (out, Items items) →
  ∃ text soup urls,
    requests_get site headers = Ok text ∧ html_parser text = Ok soup
    ∧ for_res unit_url (limit max_articles (locate_articles soup)) = Ok urls
    ∧ length (filter (λ u, u = None) (url <$> items))
      = length (filter (λ u, u = None) urls).
Proof.
  intros (text & soup & st & Ht & Hs & Hloop & ->)%run_inv.
  apply loop_urls in Hloop as (urls & Hurls & Heq). simpl in Heq.
  exists text, soup, urls. do 3 (split; [done|]).
  rewrite Heq. apply first_occurrences_none.
Qed.

End Runs.

(** C4 at a listing whose first two units point at the same article. *)
Lemma no_duplicate_urls_witness :
  NoDup (omap url [Ex.item_alpha; Ex.item_beta])
  ∧ ∃ text soup urls,
      Ex.requests_get Ex.listing site headers = Ok text
      ∧ Ex.html_parser Ex.listing text = Ok soup
      ∧ for_res (article_url_of Ex.no_check Ex.no_check) (limit 0 (locate_articles soup))
        = Ok urls
      ∧ url <$> [Ex.item_alpha; Ex.item_beta] = first_occurrences ∅ urls.
Proof.
  apply (no_duplicate_urls Ex.no_check Ex.no_check (Ex.requests_get Ex.listing)
           (Ex.html_parser Ex.listing) Ex.makedirs Ex.image_get Ex.write_image
           Ex.generated_filename Ex.now false false false "img" 0%Z
           (Ex.run Ex.listing false false false "img" 0).1).
  vm_compute. reflexivity.
Defined.

(** C1, as amended, at the same listing with the limit 2. *)
Lemma limit_keeps_a_prefix_witness :
  ∃ out text soup urls,
    Ex.requests_get Ex.listing site headers = Ok text
    ∧ Ex.html_parser Ex.listing text = Ok soup
    ∧ for_res (article_url_of Ex.no_check Ex.no_check)
        (take (Z.to_nat 2) (locate_articles soup)) = Ok urls
    ∧ Ex.run Ex.listing false false false "img" 2
      = (out, Items (take (length (first_occurrences ∅ urls)) [Ex.item_alpha; Ex.item_beta]))
    ∧ length (first_occurrences ∅ urls) ≤ Z.to_nat 2
    ∧ (first_occurrences ∅ urls = urls →
       Z.to_nat 2 ≤ length (locate_articles soup) →
       length (first_occurrences ∅ urls) = Z.to_nat 2).
Proof.
  apply (limit_keeps_a_prefix Ex.no_check Ex.no_check (Ex.requests_get Ex.listing)
           (Ex.html_parser Ex.listing) Ex.makedirs Ex.image_get Ex.write_image
           Ex.generated_filename Ex.now false false false "img" 2%Z
           (Ex.run Ex.listing false false false "img" 0).1).
  - reflexivity.
  - vm_compute. reflexivity.
Defined.

(** C1, as stated, fails on a listing of three units of which the first two
    point at the same article, with the limit 2: the run without limit
    returns two items, the run with the limit only the first one. *)
Lemma limit_counterexample :
  length (locate_articles Ex.listing) = 3
  ∧ (Ex.run Ex.listing false false false "img" 0).2 = Items [Ex.item_alpha; Ex.item_beta]
  ∧ (Ex.run Ex.listing false false false "img" 2).2 = Items [Ex.item_alpha]
  ∧ [Ex.item_alpha] ≠ take 2 [Ex.item_alpha; Ex.item_beta].
Proof. vm_compute. repeat split; done. Qed.

(** C2, as amended, at a unit with a thumbnail and two equal pictures. *)
Lemma thumbnail_merge_adds_no_duplicate_witness :
  ∃ text soup article thumb,
    Ex.requests_get Ex.listing_pictures site headers = Ok text
    ∧ Ex.html_parser Ex.listing_pictures text = Ok soup
    ∧ article ∈ limit 5 (locate_articles soup)
    ∧ made_from article Ex.item_gamma
    ∧ thumbnail_of Ex.no_check Ex.no_check article = Ok thumb
    ∧ article_url_of Ex.no_check Ex.no_check article = Ok (url Ex.item_gamma)
    ∧ images Ex.item_gamma
      = match url Ex.item_gamma with
        | Some x =>
            if Py.truthy x && true
            then add_thumbnail thumb
                   (result_images
                      (get_article_content Ex.no_check Ex.no_check
                         (Ex.requests_get Ex.listing_pictures)
                         (Ex.html_parser Ex.listing_pictures) x headers true))
            else []
        | None => []
        end
    ∧ (∀ x, url Ex.item_gamma = Some x →
         NoDup (map img_url
                  (result_images
                     (get_article_content Ex.no_check Ex.no_check
                        (Ex.requests_get Ex.listing_pictures)
                        (Ex.html_parser Ex.listing_pictures) x headers true))) →
         NoDup (map img_url (images Ex.item_gamma))).
Proof.
  apply (thumbnail_merge_adds_no_duplicate Ex.no_check Ex.no_check
           (Ex.requests_get Ex.listing_pictures) (Ex.html_parser Ex.listing_pictures)
           Ex.makedirs Ex.image_get Ex.write_image Ex.generated_filename Ex.now
           false true true "img" 5%Z
           (Ex.run Ex.listing_pictures false true true "img" 5).1 [Ex.item_gamma]).
  - vm_compute. reflexivity.
  - apply list_elem_of_here.
Defined.

(** C2, as stated, fails on an article page that shows the same picture
    twice: both entries are among the images of the item. *)
Lemma images_counterexample :
  (Ex.run Ex.listing_pictures false true true "img" 5).2 = Items [Ex.item_gamma]
  ∧ map img_url (images Ex.item_gamma)
    = ["https://crypto.news/thumb.jpg"; "https://crypto.news/a.png";
       "https://crypto.news/a.png"]
  ∧ ¬ NoDup (map img_url (images Ex.item_gamma)).
Proof.
  split; [vm_compute; reflexivity|]. split; [reflexivity|].
  intros H. simpl in H. apply NoDup_cons in H as [_ H]. apply NoDup_cons in H as [H _].
  apply H. apply list_elem_of_here.
Qed.

(** C9 at the same unit: the thumbnail cannot be fetched, the two pictures
    can. *)
Lemma local_images_follow_images_witness :
  ∃ i, let folder := path_join "img" ("article_" +:+ Py.str_of_nat (i + 1)) in
    Forall (λ img, ∃ parsed, urlparse Ex.no_check Ex.no_check (img_url img) = Ok parsed)
      (images Ex.item_gamma)
    ∧ local_images Ex.item_gamma
      = omap (λ p, local_entry Ex.no_check Ex.no_check Ex.makedirs Ex.image_get
                     Ex.write_image folder p.1 p.2)
          (enumerate_from 0 (images Ex.item_gamma))
    ∧ map loc_url (local_images Ex.item_gamma) `sublist_of` map img_url (images Ex.item_gamma).
Proof.
  apply (local_images_follow_images Ex.no_check Ex.no_check
           (Ex.requests_get Ex.listing_pictures) (Ex.html_parser Ex.listing_pictures)
           Ex.makedirs Ex.image_get Ex.write_image Ex.generated_filename Ex.now
           false true true "img" 5%Z
           (Ex.run Ex.listing_pictures false true true "img" 5).1 [Ex.item_gamma]).
  - reflexivity.
  - vm_compute. reflexivity.
  - apply list_elem_of_here.
Defined.



(** C8 at a page with a heading and no unit. *)
Lemma no_articles_empty_list_witness :
  Ex.run Ex.page_plain true true true "img" 5
  = (["Connecting to crypto.news..."; "Parsing homepage content...";
      "Debug: Could not find article elements on the page.";
      "Possible sections found:"; "- Welcome"],
     Items []).
Proof.
  apply (no_articles_empty_list Ex.no_check Ex.no_check (Ex.requests_get Ex.page_plain)
           (Ex.html_parser Ex.page_plain) Ex.makedirs Ex.image_get Ex.write_image
           Ex.generated_filename Ex.now true true true "img" 5%Z
           "https://crypto.news/" Ex.page_plain);
    vm_compute; reflexivity.
Defined.

(** ** Further properties *)

(** *** The units of a listing page *)

Lemma find_all_Forall (p : Bs.node → bool) (n : Bs.node) :
  Forall (λ e, p e = true) (Bs.find_all p n).
Proof.
  apply Forall_forall. intros e [Hp _]%list_elem_of_filter. by apply Is_true_true.
Qed.

(** X14. On a page with an [article] element, every located unit is an
    [article] element: the approaches by class name and by link text are
    not consulted. *)
Theorem units_are_article_elements (soup : Bs.node) :
  all_articles soup ≠ [] →
  Forall (λ a, Bs.named ["article"] a = true) (locate_articles soup).
Proof.
  intros Hall. unfold locate_articles.
  assert (Forall (λ a, Bs.named ["article"] a = true) (latest_articles soup)) as Hlatest.
  { unfold latest_articles. destruct (Bs.after_first _ _) as [[h following]|]; [|constructor].
    destruct (head _) as [c|]; [apply find_all_Forall | constructor]. }
  destruct (latest_articles soup) as [|a l]; cbn [is_nil]; [|done].
  destruct (all_articles soup) as [|a l] eqn:Ha; [done|]. cbn [is_nil].
  rewrite <- Ha. apply find_all_Forall.
Qed.

Lemma units_are_article_elements_witness :
  Forall (λ a, Bs.named ["article"] a = true) (locate_articles Ex.listing).
Proof.
  apply (units_are_article_elements Ex.listing). vm_compute. discriminate.
Defined.

(** *** Background images *)

Lemma substring_all (s : string) : String.substring 0 (String.length s) s = s.
Proof. induction s as [|c s IH]; [done|]. simpl. by rewrite IH. Qed.

Lemma expect_app (p r : string) : BgImage.expect p (p +:+ r) = Some r.
Proof.
  unfold BgImage.expect. rewrite startswith_app. f_equal.
  induction p as [|c p IH]; simpl.
  - rewrite Nat.sub_0_r. apply substring_all.
  - change (String c p +:+ r) with (String c (p +:+ r)) in *. simpl. apply IH.
Qed.

Lemma group_closed (x rest : string) (q : ascii) :
  BgImage.is_quote q = true →
  Url.forallb_str (λ c, negb (BgImage.is_quote c) && negb (Py.code c =? 10)) x = true →
  BgImage.group (x +:+ String q (")" +:+ rest)) = Some x.
Proof.
  intros Hq. induction x as [|c x IH]; intros Hx.
  - change (EmptyString +:+ ?t) with t. cbn [BgImage.group]. rewrite Hq.
    change (")" +:+ rest) with (String ")" rest). by cbn.
  - simpl in Hx. apply andb_prop in Hx as [[Hc Hlf]%andb_prop Hx].
    change (String c x +:+ ?t) with (String c (x +:+ t)). cbn [BgImage.group].
    apply negb_true_iff in Hc, Hlf. rewrite Hc, Hlf. cbn [andb].
    by rewrite (IH Hx).
Qed.

Lemma contains_startswith (sub s : string) :
  Py.startswith s sub = true → Py.contains sub s = true.
Proof. destruct s; cbn [Py.contains]; by intros ->. Qed.

Lemma search_here (s g : string) :
  BgImage.match_here s = Some g → BgImage.search s = Some g.
Proof. destruct s; cbn [BgImage.search]; by intros ->. Qed.

Section Background.

Variable check_bracketed_netloc check_nfkc : string → option exn.

(** X15. An element whose style starts with [background-image: url('X')], where
    [X] has no quote and no line feed, gives the entry whose URL is [X]
    resolved against the base, with empty texts. *)
Theorem background_image_found (base_url x rest : string) (element : Bs.node) :
  Url.forallb_str (λ c, negb (BgImage.is_quote c) && negb (Py.code c =? 10)) x = true →
  Bs.attr "style" element = Some ("background-image: url('" +:+ x +:+ "')" +:+ rest) →
  image_of_style check_bracketed_netloc check_nfkc base_url element
  = (u <- resolve check_bracketed_netloc check_nfkc base_url x ;
     Ok (Some (Image u EmptyString EmptyString None))).
Proof.
  intros Hx Hstyle. unfold image_of_style, Bs.get_or. rewrite Hstyle. cbv zeta.
  assert (Py.contains "background-image"
            ("background-image: url('" +:+ x +:+ "')" +:+ rest) = true) as ->.
  { apply contains_startswith.
    change ("background-image: url('" +:+ ?t) with ("background-image" +:+ ": url('" +:+ t).
    apply startswith_app. }
  assert (BgImage.search ("background-image: url('" +:+ x +:+ "')" +:+ rest) = Some x) as ->;
    [|done].
  apply search_here.
  { unfold BgImage.match_here.
    change ("background-image: url('" +:+ ?t) with ("background-image" +:+ ": url('" +:+ t).
    rewrite expect_app. cbn [mbind option_bind].
    change (Py.drop_while Py.isspace (": url('" +:+ ?t)) with (":" +:+ " url('" +:+ t).
    rewrite expect_app. cbn [mbind option_bind].
    change (Py.drop_while Py.isspace (" url('" +:+ ?t)) with ("url(" +:+ "'" +:+ t).
    rewrite expect_app. cbn [mbind option_bind].
    change ("'" +:+ ?t) with (String Py.squote t).
    change (BgImage.is_quote Py.squote) with true. cbv iota.
    change ("')" +:+ rest) with (String Py.squote (")" +:+ rest)).
    by apply group_closed. }
Qed.

End Background.

Lemma background_image_found_witness :
  image_of_style Ex.no_check Ex.no_check "https://crypto.news/a"
    (Ex.tag "div" [("style", "background-image: url('bg.png'); color: red")] [])
  = Ok (Some (Image "https://crypto.news/bg.png" EmptyString EmptyString None)).
Proof.
  rewrite (background_image_found Ex.no_check Ex.no_check "https://crypto.news/a"
             "bg.png" "; color: red").
  - vm_compute. reflexivity.
  - vm_compute. reflexivity.
  - vm_compute. reflexivity.
Defined.

(** *** What [display_news] shows *)

Lemma str_length_app (a b : string) :
  String.length (a +:+ b) = String.length a + String.length b.
Proof.
  induction a as [|c a IH]; [done|].
  change (String c a +:+ b) with (String c (a +:+ b)). simpl. by rewrite IH.
Qed.

Lemma slice_to_length (n : nat) (s : string) :
  String.length (slice_to n s) = n `min` String.length s.
Proof.
  unfold slice_to. revert n. induction s as [|c s IH]; intros [|n]; simpl; try done.
  by rewrite IH.
Qed.

Lemma enumerate_from_elem {A} (k : nat) (l : list A) (x : A) :
  x ∈ l → ∃ i, (i, x) ∈ enumerate_from k l.
Proof.
  revert k. induction l as [|y l IH]; intros k; [by intros ?%elem_of_nil|].
  cbn [enumerate_from]. intros [->|Hx]%elem_of_cons.
  - exists k. apply list_elem_of_here.
  - destruct (IH (S k) Hx) as [i Hi]. exists i. by apply list_elem_of_further.
Qed.

(** The lines of an item are among the lines [display_news] prints. *)
Lemma display_item_printed (retrieved_at : string) (show_full_content show_images : bool)
    (news_items : list news_item) (r : news_item) :
  r ∈ news_items →
  ∃ i, ∀ line,
    line ∈ display_item show_full_content show_images i r →
    line ∈ display_news retrieved_at (Items news_items) show_full_content show_images.
Proof.
  intros Hr. destruct (enumerate_from_elem 1 _ _ Hr) as [i Hi]. exists i.
  intros line Hline. unfold display_news.
  destruct news_items as [|r0 l]; [by apply elem_of_nil in Hr|]. cbn [is_nil].
  apply elem_of_app. right. apply list_elem_of_In, in_flat_map.
  exists (i, r). split; by apply list_elem_of_In.
Qed.

(** X16. For every item with a summary, [display_news] prints the line
    [   Summary: ] followed by a text of at most 150 characters: the summary
    itself when it has at most 150 characters, and otherwise its first 147
    characters and three dots. For every item with a content, it prints
    three spaces followed by the whole content when asked to or when the
    content has at most 500 characters, and otherwise by its first 500
    characters and a notice, 535 characters in all. *)
Theorem previews_are_bounded (retrieved_at : string) (show_full_content show_images : bool)
    (news_items : list news_item) (r : news_item) :
  r ∈ news_items →
  (Py.truthy (summary r) = true →
   ∃ shown,
     "   Summary: " +:+ shown
     ∈ display_news retrieved_at (Items news_items) show_full_content show_images
     ∧ Py.len shown ≤ 150
     ∧ (Py.len (summary r) ≤ 150 → shown = summary r)
     ∧ (150 < Py.len (summary r) →
        shown = String.substring 0 147 (summary r) +:+ "..." ∧ Py.len shown = 150))
  ∧ (Py.truthy (content r) = true →
     ∃ shown,
       "   " +:+ shown
       ∈ display_news retrieved_at (Items news_items) show_full_content show_images
       ∧ (show_full_content = true ∨ Py.len (content r) ≤ 500 → shown = content r)
       ∧ (show_full_content = false → 500 < Py.len (content r) →
          shown = String.substring 0 500 (content r) +:+ "..." +:+ nl
                  +:+ "(content truncated for display)"
          ∧ Py.len shown = 535)).
Proof.
  intros Hr.
  destruct (display_item_printed retrieved_at show_full_content show_images _ _ Hr)
    as [i Hprinted].
  assert (String.length "..." = 3) as Hdots by reflexivity.
  assert (String.length ("..." +:+ nl +:+ "(content truncated for display)") = 35)
    as Hnotice by reflexivity.
  split.
  - intros Hsummary. exists (summary_preview (summary r)). split.
    { apply Hprinted. unfold display_item. rewrite Hsummary.
      do 2 (apply elem_of_app; right). apply elem_of_app. left.
      apply list_elem_of_here. }
    unfold summary_preview, slice_to, Py.len.
    destruct (150 <? String.length (summary r)) eqn:E.
    + apply Nat.ltb_lt in E.
      pose proof (slice_to_length 147 (summary r)) as Hlen. unfold slice_to in Hlen.
      rewrite str_length_app, Hlen, Hdots.
      split; [lia|]. split; [lia|]. intros _. split; [done|lia].
    + apply Nat.ltb_ge in E. split; [lia|]. split; [done|lia].
  - intros Hcontent. exists (content_preview show_full_content (content r)). split.
    { apply Hprinted. unfold display_item. rewrite Hcontent.
      do 6 (apply elem_of_app; right). apply elem_of_app. left.
      apply list_elem_of_further, list_elem_of_here. }
    unfold content_preview, slice_to, Py.len. split.
    + intros [-> | H]; [done|]. by rewrite (proj2 (Nat.ltb_ge _ _) H), andb_false_r.
    + intros -> H. rewrite (proj2 (Nat.ltb_lt _ _) H). cbn [negb andb].
      split; [done|].
      pose proof (slice_to_length 500 (content r)) as Hlen. unfold slice_to in Hlen.
      rewrite str_length_app, Hlen, Hnotice. lia.
Qed.

Lemma previews_are_bounded_witness :
  (∃ shown,
     "   Summary: " +:+ shown ∈ display_news "now" (Items [Ex.item_long]) false false
     ∧ Py.len shown ≤ 150
     ∧ (Py.len (summary Ex.item_long) ≤ 150 → shown = summary Ex.item_long)
     ∧ (150 < Py.len (summary Ex.item_long) →
        shown = String.substring 0 147 (summary Ex.item_long) +:+ "..."
        ∧ Py.len shown = 150))
  ∧ (∃ shown,
       "   " +:+ shown ∈ display_news "now" (Items [Ex.item_long]) false false
       ∧ (false = true ∨ Py.len (content Ex.item_long) ≤ 500 → shown = content Ex.item_long)
       ∧ (false = false → 500 < Py.len (content Ex.item_long) →
          shown = String.substring 0 500 (content Ex.item_long) +:+ "..." +:+ nl
                  +:+ "(content truncated for display)"
          ∧ Py.len shown = 535)).
Proof.
  pose proof (previews_are_bounded "now" false false [Ex.item_long] Ex.item_long
                (list_elem_of_here _ _)) as [Hsummary Hcontent].
  split; [apply Hsummary | apply Hcontent]; reflexivity.
Defined.

(** *** The text of an article *)

Section Lines.

Variable P : ascii → bool.
Notation all := (Url.forallb_str P).

Lemma all_rev_app (s t : string) :
  all s = true → all t = true → all (String.rev_app s t) = true.
Proof.
  revert t. induction s as [|c s IH]; intros t Hs Ht; [done|].
  simpl in Hs. apply andb_prop in Hs as [Hc Hs]. simpl. apply IH; [done|].
  simpl. by rewrite Hc, Ht.
Qed.

Lemma all_rev (s : string) : all s = true → all (String.rev s) = true.
Proof. intros H. by apply all_rev_app. Qed.

Lemma all_strip_by (f : ascii → bool) (s : string) :
  all s = true → all (Py.strip_by f s) = true.
Proof.
  intros H. unfold Py.strip_by, Py.rstrip_by, Py.lstrip_by.
  by apply all_rev, all_drop_while, all_rev, all_drop_while.
Qed.

End Lines.

Lemma splitlines_go_lines (n : nat) (cur s : string) :
  String.length s ≤ n →
  Url.forallb_str not_linebreak cur = true →
  Forall (λ l, Url.forallb_str not_linebreak l = true) (Py.splitlines_go cur s).
Proof.
  revert cur s. induction n as [|n IH]; intros cur s Hn Hcur.
  - destruct s; [|simpl in Hn; lia]. simpl.
    destruct (String.eqb cur EmptyString); repeat constructor. by apply all_rev.
  - destruct s as [|c s]; simpl.
    { destruct (String.eqb cur EmptyString); repeat constructor. by apply all_rev. }
    simpl in Hn. destruct (Py.is_linebreak c) eqn:Hc.
    + constructor; [by apply all_rev|].
      destruct s as [|d s]; [constructor|]. simpl in Hn.
      destruct (_ && _); apply IH; simpl; try done; lia.
    + apply IH; [lia|]. simpl. unfold not_linebreak at 1. by rewrite Hc.
Qed.

Lemma join_cons (sep x y : string) (l : list string) :
  Py.join sep (x :: y :: l) = x +:+ sep +:+ Py.join sep (y :: l).
Proof. reflexivity. Qed.

Lemma join_lines_head (c : ascii) (x : string) (ls : list string) :
  ∃ t, Py.join nl (String c x :: ls) = String c t.
Proof.
  destruct ls as [|y ls]; [by exists x|]. rewrite join_cons.
  exists (x +:+ nl +:+ Py.join nl (y :: ls)). done.
Qed.

Lemma startswith_blank (d : ascii) (s : string) :
  not_linebreak d = true → Py.startswith (String d s) (nl +:+ nl) = false.
Proof.
  intros Hd.
  change (nl +:+ nl) with (String (ascii_of_nat 10) (String (ascii_of_nat 10) EmptyString)).
  cbn [Py.startswith]. destruct (Ascii.eqb (ascii_of_nat 10) d) eqn:E; [|done].
  apply Ascii.eqb_eq in E as <-. done.
Qed.

Lemma contains_cons (sub : string) (c : ascii) (s : string) :
  Py.contains sub (String c s) = Py.startswith (String c s) sub || Py.contains sub s.
Proof. reflexivity. Qed.

Lemma no_blank_line_app (x t : string) (c : ascii) :
  Url.forallb_str not_linebreak x = true →
  not_linebreak c = true →
  Py.contains (nl +:+ nl) (String c t) = false →
  Py.contains (nl +:+ nl) (x +:+ nl +:+ String c t) = false.
Proof.
  intros Hx Hc Ht. induction x as [|d x IH].
  - change (EmptyString +:+ ?s) with s.
    change (nl +:+ String c t) with (String (ascii_of_nat 10) (String c t)).
    rewrite contains_cons, Ht, orb_false_r.
    change (nl +:+ nl) with (String (ascii_of_nat 10) (String (ascii_of_nat 10) EmptyString)).
    cbn [Py.startswith]. destruct (Ascii.eqb (ascii_of_nat 10) c) eqn:E;
      [|by rewrite andb_false_r].
    apply Ascii.eqb_eq in E as <-. done.
  - simpl in Hx. apply andb_prop in Hx as [Hd Hx].
    change (String d x +:+ ?s) with (String d (x +:+ s)).
    by rewrite contains_cons, (startswith_blank _ _ Hd), (IH Hx).
Qed.

Lemma no_blank_line_single (x : string) :
  Url.forallb_str not_linebreak x = true → Py.contains (nl +:+ nl) x = false.
Proof.
  induction x as [|d x IH]; [done|]. intros H. simpl in H.
  apply andb_prop in H as [Hd Hx].
  by rewrite contains_cons, (IH Hx), (startswith_blank _ _ Hd).
Qed.

Lemma join_lines_no_blank (ls : list string) :
  Forall text_line ls → Py.contains (nl +:+ nl) (Py.join nl ls) = false.
Proof.
  induction ls as [|x ls IH]; [done|]. intros H. inversion H as [|? ? [Hne Hx] Hls]. subst.
  destruct ls as [|y ls]; [by apply no_blank_line_single|].
  rewrite join_cons. specialize (IH Hls).
  inversion Hls as [|? ? [Hy Hyl] _]. subst. destruct y as [|c y]; [done|].
  destruct (join_lines_head c y ls) as [t Ht]. rewrite Ht in IH |- *.
  apply no_blank_line_app; [done| |done]. simpl in Hyl. by apply andb_prop in Hyl as [? _].
Qed.

(** X17. The text taken from a content container has no blank line: it is made
    of non-empty lines, none of which has a line break in it, joined by
    single line feeds. *)
Theorem container_text_has_no_blank_line (content_container : Bs.node) :
  Py.contains (nl +:+ nl) (container_text content_container) = false
  ∧ ∃ lines, container_text content_container = Py.join nl lines ∧ Forall text_line lines.
Proof.
  unfold container_text. cbv zeta.
  match goal with
  | |- context [Py.splitlines ?c] => generalize c
  end.
  intros content.
  assert (Forall text_line
            (filter (λ l, Py.truthy l) (map Py.strip (Py.splitlines content)))) as Hlines.
  { apply Forall_forall. intros l [Hl Hin]%list_elem_of_filter. split.
    - intros ->. done.
    - apply list_elem_of_In, in_map_iff in Hin as (l0 & <- & Hin0).
      apply all_strip_by.
      pose proof (splitlines_go_lines (String.length content) EmptyString content
                    (le_n _) eq_refl) as Hall.
      eapply Forall_forall in Hall; [exact Hall|]. by apply list_elem_of_In. }
  split; [by apply join_lines_no_blank|]. eauto.
Qed.

(** *** The further properties at the example pages *)

Lemma limit_bounds_items_witness : length [Ex.item_alpha] ≤ Z.to_nat 2.
Proof.
  apply (limit_bounds_items Ex.no_check Ex.no_check (Ex.requests_get Ex.listing)
           (Ex.html_parser Ex.listing) Ex.makedirs Ex.image_get Ex.write_image
           Ex.generated_filename Ex.now false false false "img" 2%Z
           (Ex.run Ex.listing false false false "img" 2).1).
  - reflexivity.
  - vm_compute. reflexivity.
Defined.

Lemma images_need_flags_witness :
  images Ex.item_alpha = [] ∧ local_images Ex.item_alpha = [].
Proof.
  refine (proj1 (images_need_flags Ex.no_check Ex.no_check (Ex.requests_get Ex.listing)
                   (Ex.html_parser Ex.listing) Ex.makedirs Ex.image_get Ex.write_image
                   Ex.generated_filename Ex.now false false true "img" 0%Z
                   (Ex.run Ex.listing false false true "img" 0).1
                   [Ex.item_alpha; Ex.item_beta] Ex.item_alpha _ _) _).
  - vm_compute. reflexivity.
  - apply list_elem_of_here.
  - reflexivity.
Defined.

Lemma tags_are_short_witness :
  Forall (λ tag, tag ≠ EmptyString ∧ Py.len tag < 30) (tags Ex.item_delta).
Proof.
  apply (tags_are_short Ex.no_check Ex.no_check (Ex.requests_get Ex.listing_tags)
           (Ex.html_parser Ex.listing_tags) Ex.makedirs Ex.image_get Ex.write_image
           Ex.generated_filename Ex.now false false false "img" 0%Z
           (Ex.run Ex.listing_tags false false false "img" 0).1 [Ex.item_delta]).
  - vm_compute. reflexivity.
  - apply list_elem_of_here.
Defined.

Lemma summary_is_empty_or_long_witness :
  summary Ex.item_delta = EmptyString ∨ 10 < Py.len (summary Ex.item_delta).
Proof.
  apply (summary_is_empty_or_long Ex.no_check Ex.no_check (Ex.requests_get Ex.listing_tags)
           (Ex.html_parser Ex.listing_tags) Ex.makedirs Ex.image_get Ex.write_image
           Ex.generated_filename Ex.now false false false "img" 0%Z
           (Ex.run Ex.listing_tags false false false "img" 0).1 [Ex.item_delta]).
  - vm_compute. reflexivity.
  - apply list_elem_of_here.
Defined.

Lemma items_follow_units_witness :
  ∃ text soup urls,
    Ex.requests_get Ex.listing_script site headers = Ok text
    ∧ Ex.html_parser Ex.listing_script text = Ok soup
    ∧ for_res (article_url_of Ex.no_check Ex.no_check)
        (limit 0 (locate_articles soup)) = Ok urls
    ∧ (first_units ∅ (zip (limit 0 (locate_articles soup)) urls)).*1
      `sublist_of` limit 0 (locate_articles soup)
    ∧ Forall2 (λ au item, made_from au.1 item ∧ url item = au.2)
        (first_units ∅ (zip (limit 0 (locate_articles soup)) urls))
        [Ex.item_script; Ex.item_beta].
Proof.
  apply (items_follow_units Ex.no_check Ex.no_check (Ex.requests_get Ex.listing_script)
           (Ex.html_parser Ex.listing_script) Ex.makedirs Ex.image_get Ex.write_image
           Ex.generated_filename Ex.now false false false "img" 0%Z
           (Ex.run Ex.listing_script false false false "img" 0).1).
  vm_compute. reflexivity.
Defined.

Lemma bad_unit_fails_the_run_witness :
  ∃ out error, Ex.run Ex.listing_bad true false false "img" 0 = (out, Error error).
Proof.
  apply (bad_unit_fails_the_run Ex.no_check Ex.no_check (Ex.requests_get Ex.listing_bad)
           (Ex.html_parser Ex.listing_bad) Ex.makedirs Ex.image_get Ex.write_image
           Ex.generated_filename Ex.now true false false "img" 0%Z
           "https://crypto.news/" Ex.listing_bad Ex.unit_bad
           (ValueError "Invalid IPv6 URL")).
  - vm_compute. reflexivity.
  - vm_compute. reflexivity.
  - change (limit 0 (locate_articles Ex.listing_bad))
      with [Ex.unit "Alpha" "/x"; Ex.unit_bad].
    apply list_elem_of_further, list_elem_of_here.
  - right. vm_compute. reflexivity.
Defined.

Lemma content_follows_url_witness :
  Py.truthy "https://crypto.news/y" = true
  ∧ content Ex.item_beta
    = result_content
        (get_article_content Ex.no_check Ex.no_check (Ex.requests_get Ex.listing)
           (Ex.html_parser Ex.listing) "https://crypto.news/y" headers false).
Proof.
  split; [reflexivity|].
  refine (content_follows_url Ex.no_check Ex.no_check (Ex.requests_get Ex.listing)
            (Ex.html_parser Ex.listing) Ex.makedirs Ex.image_get Ex.write_image
            Ex.generated_filename Ex.now false false false "img" 0%Z
            (Ex.run Ex.listing false false false "img" 0).1
            [Ex.item_alpha; Ex.item_beta] Ex.item_beta _ _ _).
  - vm_compute. reflexivity.
  - apply list_elem_of_further, list_elem_of_here.
  - reflexivity.
Defined.

Lemma local_images_in_article_folder_witness :
  ∃ i, Forall (λ l, ∃ name,
                 loc_local_path l
                 = path_join (path_join "img" ("article_" +:+ Py.str_of_nat (i + 1)))
                     ("image_" +:+ name)
                 ∧ Py.startswith (loc_local_path l)
                     (path_join "img" ("article_" +:+ Py.str_of_nat (i + 1))) = true)
         (local_images Ex.item_gamma).
Proof.
  apply (local_images_in_article_folder Ex.no_check Ex.no_check
           (Ex.requests_get Ex.listing_pictures) (Ex.html_parser Ex.listing_pictures)
           Ex.makedirs Ex.image_get Ex.write_image Ex.generated_filename Ex.now
           false true true "img" 5%Z
           (Ex.run Ex.listing_pictures false true true "img" 5).1 [Ex.item_gamma]).
  - reflexivity.
  - vm_compute. reflexivity.
  - apply list_elem_of_here.
Defined.

Lemma thumbnail_flag_only_first_witness :
  Forall (λ img, img_is_thumbnail img = None) (tail (images Ex.item_gamma)).
Proof.
  apply (thumbnail_flag_only_first Ex.no_check Ex.no_check
           (Ex.requests_get Ex.listing_pictures) (Ex.html_parser Ex.listing_pictures)
           Ex.makedirs Ex.image_get Ex.write_image Ex.generated_filename Ex.now
           false true true "img" 5%Z
           (Ex.run Ex.listing_pictures false true true "img" 5).1 [Ex.item_gamma]).
  - vm_compute. reflexivity.
  - apply list_elem_of_here.
Defined.

Lemma extracted_images_are_plain_witness :
  length [Ex.picture_a; Ex.picture_a]
  ≤ length (Bs.find_all (Bs.named ["img"]) Ex.page_pictures)
    + length (Bs.find_all (Bs.has_attr "style") Ex.page_pictures)
  ∧ Forall (λ img, img_is_thumbnail img = None) [Ex.picture_a; Ex.picture_a].
Proof.
  apply (extracted_images_are_plain Ex.no_check Ex.no_check Ex.page_pictures
           "https://crypto.news/pictures").
  vm_compute. reflexivity.
Defined.

Lemma resolve_gives_absolute_witness :
  "https://crypto.news/a/c?q" = "c?q"
  ∨ Py.startswith_any "https://crypto.news/a/c?q" ["http://"; "https://"] = true.
Proof.
  apply (resolve_gives_absolute Ex.no_check Ex.no_check "https://crypto.news/a/b" "c?q").
  - vm_compute. reflexivity.
  - vm_compute. reflexivity.
Defined.

Lemma resolve_plain_returns_witness :
  ∃ x, resolve Ex.no_check Ex.no_check "https://crypto.news/a/b" "../c d;p" = Ok x.
Proof.
  apply (resolve_plain_returns Ex.no_check Ex.no_check "https://crypto.news/a/b" "../c d;p").
  - vm_compute. reflexivity.
  - vm_compute. reflexivity.
Defined.

Lemma download_image_result_witness :
  ∃ out,
    download_image Ex.no_check Ex.no_check Ex.makedirs Ex.image_get Ex.write_image
      Ex.generated_filename "https://crypto.news/a.png" "img" "a.png"
    = (out, Ok (if downloaded Ex.makedirs Ex.image_get Ex.write_image
                     "https://crypto.news/a.png" "img" "a.png"
                then Some (path_join "img" "a.png") else None))
    ∧ length out ≤ 1
    ∧ (downloaded Ex.makedirs Ex.image_get Ex.write_image
         "https://crypto.news/a.png" "img" "a.png" = true → out = [])
    ∧ (Ex.makedirs "img" = None →
       (∃ content_type, Ex.image_get "https://crypto.news/a.png" = Ok content_type
                        ∧ Py.startswith content_type "image/" = false) →
       out = []).
Proof.
  apply (download_image_result Ex.no_check Ex.no_check Ex.makedirs Ex.image_get
           Ex.write_image Ex.generated_filename "https://crypto.news/a.png" "img" "a.png").
  reflexivity.
Defined.

Lemma listing_failure_is_an_error_witness :
  ∃ out,
    get_latest_crypto_news Ex.no_check Ex.no_check
      (λ _ _, Raise (RequestException "Read timed out."))
      (Ex.html_parser Ex.listing) Ex.makedirs Ex.image_get Ex.write_image
      Ex.generated_filename Ex.now true true true "img" 5
    = (out, Error "Request error: Read timed out.").
Proof.
  apply (listing_failure_is_an_error Ex.no_check Ex.no_check
           (λ _ _, Raise (RequestException "Read timed out."))
           (Ex.html_parser Ex.listing) Ex.makedirs Ex.image_get Ex.write_image
           Ex.generated_filename Ex.now true true true "img" 5%Z
           (RequestException "Read timed out.")).
  left. reflexivity.
Defined.

Lemma linkless_units_are_kept_witness :
  ∃ text soup urls,
    Ex.requests_get Ex.listing_linkless site headers = Ok text
    ∧ Ex.html_parser Ex.listing_linkless text = Ok soup
    ∧ for_res (article_url_of Ex.no_check Ex.no_check)
        (limit 0 (locate_articles soup)) = Ok urls
    ∧ length (filter (λ u, u = None)
                (url <$> Ex.items_of (Ex.run Ex.listing_linkless false false false "img" 0)))
      = length (filter (λ u, u = None) urls).
Proof.
  apply (linkless_units_are_kept Ex.no_check Ex.no_check
           (Ex.requests_get Ex.listing_linkless) (Ex.html_parser Ex.listing_linkless)
           Ex.makedirs Ex.image_get Ex.write_image Ex.generated_filename Ex.now
           false false false "img" 0%Z
           (Ex.run Ex.listing_linkless false false false "img" 0).1).
  vm_compute. reflexivity.
Defined.

Lemma content_container_is_long_witness :
  200 < text_len Ex.story ∧ Ex.story ∈ Bs.descendants Ex.page_story.
Proof.
  apply (content_container_is_long Ex.page_story Ex.story).
  vm_compute. reflexivity.
Defined.
